(** * The CSV import box of the console: registry of import jobs,
      completion notifications, progress and row labels.

    Shallow embedding of [src/lib/components/csvImportBox.svelte]: the
    script part of the component, function by function.  Strings are
    Rocq byte strings, [undefined]/[null] are [None], the store
    [importItems] is an insertion-ordered association list as a
    JavaScript [Map] is, and the calls the component makes to its
    collaborators (notification bus, cache invalidation) are
    recorded in a trace. *)

From Stdlib Require Import Bool Ascii String List ZArith Lia.
Import ListNotations.

Local Open Scope list_scope.
Local Open Scope string_scope.

#[local] Set Warnings "-register-all".

(** ** JavaScript values and strings *)

(** A value as [JSON.parse] can return it, plus [undefined] (what a
    missing property reads as).  A number keeps its literal. *)
Inductive jsval : Type :=
| JUndefined
| JNull
| JBool (b : bool)
| JNum (literal : string)
| JStr (s : string)
| JArr (elements : list jsval)
| JObj (fields : list (string * jsval)).

(** Truthiness of a string: only the empty string is falsy. *)
Definition truthy (s : string) : bool :=
  match s with
  | EmptyString => false
  | String _ _ => true
  end.

(** Truthiness of [string | null | undefined]. *)
Definition truthy_opt (o : option string) : bool :=
  match o with
  | Some s => truthy s
  | None => false
  end.

(** [`${x}`] for a [string | undefined]. *)
Definition interpolate (o : option string) : string :=
  match o with
  | Some s => s
  | None => "undefined"
  end.

(** [a === b] for two [string | undefined]. *)
Definition same_opt (a b : option string) : bool :=
  match a, b with
  | Some x, Some y => String.eqb x y
  | None, None => true
  | _, _ => false
  end.

Definition lower_ascii (c : ascii) : ascii :=
  let n := nat_of_ascii c in
  if (65 <=? n)%nat && (n <=? 90)%nat then ascii_of_nat (n + 32) else c.

(** [String.prototype.toLowerCase] on the ASCII letters; other bytes are
    kept. *)
Fixpoint toLowerCase (s : string) : string :=
  match s with
  | EmptyString => EmptyString
  | String c rest => String (lower_ascii c) (toLowerCase rest)
  end.

(** [s.split(sep)] for a one-character separator: the pieces between
    the separators, never an empty array. *)
Fixpoint split (sep : ascii) (s : string) : list string :=
  match s with
  | EmptyString => [EmptyString]
  | String c rest =>
      if Ascii.eqb c sep then EmptyString :: split sep rest
      else match split sep rest with
           | piece :: pieces => String c piece :: pieces
           | [] => [String c EmptyString]
           end
  end.

(** [s.includes(c)] for a character. *)
Fixpoint includes_char (c : ascii) (s : string) : bool :=
  match s with
  | EmptyString => false
  | String c' rest => Ascii.eqb c' c || includes_char c rest
  end.

(** [xs.includes(s)] for an array of strings. *)
Definition includes (xs : list string) (s : string) : bool :=
  existsb (String.eqb s) xs.

(** The value of [v.message]; [None] when the access throws a
    [TypeError] ([null] and [undefined] have no properties).  In an
    object the last field of that name counts, as [JSON.parse] lets a
    later duplicate key win; arrays, strings, numbers and booleans have
    no such property. *)
Fixpoint lookup_field (key : string) (fields : list (string * jsval)) : option jsval :=
  match fields with
  | [] => None
  | (k, v) :: rest =>
      match lookup_field key rest with
      | Some later => Some later
      | None => if String.eqb k key then Some v else None
      end
  end.

Definition get_message (v : jsval) : option jsval :=
  match v with
  | JUndefined | JNull => None
  | JObj fields =>
      match lookup_field "message" fields with
      | Some m => Some m
      | None => Some JUndefined
      end
  | _ => Some JUndefined
  end.

(** ** Data model *)

(** [type ImportItem = { status: string; collection?: string }] *)
Module ImportItem.
Record t : Type := make { status : string; collection : option string }.
End ImportItem.

(** The [errors] field of an event: missing (or [null]), an array of
    JSON-encoded strings (the SDK's [Migration.errors: string[]]), or a
    string that is not an array. *)
Inductive errorsField : Type :=
| ErrorsMissing
| ErrorsArray (entries : list string)
| ErrorsText (s : string).

(** [Payload | Models.Migration], the fields the component reads. *)
Module Payload.
Record t : Type := make {
  id : string;                  (* $id *)
  source : string;
  status : string;
  resourceId : option string;
  errors : errorsField
}.
End Payload.

(** [page], the parts read here: [base] and the route parameters. *)
Module Page.
Record t : Type := make {
  base : string;
  region : option string;
  project : option string;
  collection : option string
}.
End Page.

Inductive severity : Type := success | error.

(** A notification button: its label and the URL its [method] passes
    to [goto]. *)
Module Button.
Record t : Type := make { name : string; goto : string }.
End Button.

(** The argument of [addNotification]. *)
Module Notification.
Record t : Type := make {
  type : severity;
  message : jsval;
  isHtml : bool;
  buttons : option (list Button.t)
}.
End Notification.

(** [Dependencies], the one tag used here. *)
Inductive Dependencies : Type := DOCUMENTS.

(** What the component does to the outside, in order: it enters
    [showCompletionNotification], posts a notification, invalidates a
    dependency. *)
Inductive effect : Type :=
| CallShowCompletionNotification
    (database collection : option string) (payload : Payload.t)
| AddNotification (n : Notification.t)
| Invalidate (d : Dependencies).

(** ** The store: [Map<string, ImportItem>]

    A JavaScript [Map] keeps its keys in insertion order; [set] on a
    key already present replaces the value in place. *)
Definition ImportItemsMap : Type := list (string * ImportItem.t).

Fixpoint get (items : ImportItemsMap) (key : string) : option ImportItem.t :=
  match items with
  | [] => None
  | (k, v) :: rest => if String.eqb k key then Some v else get rest key
  end.

Fixpoint set (items : ImportItemsMap) (key : string) (value : ImportItem.t)
  : ImportItemsMap :=
  match items with
  | [] => [(key, value)]
  | (k, v) :: rest =>
      if String.eqb k key then (k, value) :: rest
      else (k, v) :: set rest key value
  end.

Definition size (items : ImportItemsMap) : nat := List.length items.

(** [clear]: the store is emptied in one update. *)
Definition clear (items : ImportItemsMap) : ImportItemsMap := [].

(** [$: showCsvImportBox = $importItems.size > 0] *)
Definition showCsvImportBox (items : ImportItemsMap) : bool :=
  negb (Nat.eqb (size items) 0).

(** ** Pure rendering helpers *)

Definition graphSize (status : string) : Z :=
  if String.eqb status "pending" then 10%Z
  else if String.eqb status "processing" then 30%Z
  else if String.eqb status "uploading" then 60%Z
  else if String.eqb status "completed" then 100%Z
  else if String.eqb status "failed" then 100%Z
  else 30%Z.

(** [text(status, collectionName = '')]: the default value stands in
    for an [undefined] argument. *)
Definition text (status : string) (collectionName : option string) : string :=
  let collectionName :=
    match collectionName with Some c => c | None => "" end in
  let name :=
    if truthy collectionName then "<b>" ++ collectionName ++ "</b>" else "" in
  if String.eqb status "completed" || String.eqb status "failed" then
    "Import to " ++ name ++ " " ++ status
  else if String.eqb status "processing" then
    "Importing CSV file" ++ (if truthy name then " to " ++ name else "")
  else "Preparing CSV for import...".

(** ** Reconciliation *)

(** The two local predicates of the update callback. *)
Definition isDone (s : string) : bool :=
  String.eqb s "completed" || String.eqb s "failed".

Definition isInProgress (s : string) : bool :=
  includes ["pending"; "processing"; "uploading"] s.

(** [const resourceId = importData.resourceId ?? '';]
    [const [databaseId, collectionId] = resourceId.split(':') ?? [];]
    [split] never returns a nullish value, so the second [??] passes
    the array on; destructuring reads the places 0 and 1. *)
Definition parseResourceId (resourceId : option string)
  : option string * option string :=
  let resourceId := match resourceId with Some r => r | None => "" end in
  let parts := split ":" resourceId in
  (nth_error parts 0, nth_error parts 1).

(** [!!payload.errors]: an array is truthy, the empty one too. *)
Definition errors_truthy (e : errorsField) : bool :=
  match e with
  | ErrorsMissing => false
  | ErrorsArray _ => true
  | ErrorsText s => truthy s
  end.

(** [payload.errors[0]] as [JSON.parse] reads its argument: the first
    entry, or the text of [undefined] when there is none. *)
Definition first_error (entries : list string) : string :=
  match entries with
  | e :: _ => e
  | [] => "undefined"
  end.

Definition default_errorMessage : string :=
  "Import failed. Check your CSV for correct fields and required values.".

Section Component.

(** The collaborators.  [JSON_parse] is the runtime's [JSON.parse]
    ([None]: it throws); [getCollection] is the directory lookup of
    the SDK, giving the collection's name ([None]: the promise is
    rejected); [page] is the current page. *)
Variable JSON_parse : string -> option jsval.
Variable getCollection : option string -> string -> option string.
Variable page : Page.t.

(** [JSON.parse(payload.errors[0]).message] under [try]: [None] when
    either step throws. *)
Definition parsed_message (entries : list string) : option jsval :=
  match JSON_parse (first_error entries) with
  | Some v => get_message v
  | None => None
  end.

Definition showCompletionNotification
    (database collection : option string) (payload : Payload.t) : list effect :=
  let isSuccess := String.eqb (Payload.status payload) "completed" in
  let isError := negb isSuccess && errors_truthy (Payload.errors payload) in
  if negb isSuccess && negb isError then []
  else
    let errorMessage := JStr default_errorMessage in
    let errorMessage :=
      match isError, Payload.errors payload with
      | true, ErrorsArray entries =>
          match parsed_message entries with
          | Some m => m
          | None => errorMessage
          end
      | _, _ => errorMessage
      end in
    let type := if isSuccess then success else error in
    let message :=
      if isError then errorMessage else JStr "CSV import finished successfully." in
    let url :=
      Page.base page ++ "/project-" ++ interpolate (Page.region page) ++ "-"
        ++ interpolate (Page.project page) ++ "/databases/database-"
        ++ interpolate database ++ "/collection-" ++ interpolate collection in
    AddNotification
      (Notification.make type message true
         (if isSuccess && negb (same_opt collection (Page.collection page))
          then Some [Button.make "View documents" url]
          else None))
    :: (if isSuccess then [Invalidate DOCUMENTS] else []).

(** The name the update will store: the one the entry read before the
    lookup already has, or else the directory's answer when the event
    names a collection. *)
Definition resolveCollectionName
    (current : option ImportItem.t) (databaseId collectionId : option string)
  : option string :=
  let collectionName :=
    match current with
    | Some item => ImportItem.collection item
    | None => None
    end in
  if negb (truthy_opt collectionName) && truthy_opt collectionId then
    match collectionId with
    | Some c => getCollection databaseId c
    | None => None
    end
  else collectionName.

(** The callback given to [importItems.update]. *)
Definition updateItems
    (items : ImportItemsMap) (importData : Payload.t)
    (collectionName : option string) : ImportItemsMap :=
  let status := Payload.status importData in
  let existing := get items (Payload.id importData) in
  let shouldSkip :=
    match existing with
    | Some e =>
        (isDone (ImportItem.status e) && isInProgress status)
        || String.eqb (ImportItem.status e) status
    | None => false
    end in
  if shouldSkip then items
  else set items (Payload.id importData) (ImportItem.make status collectionName).

(** The component's state: the store and what it has done so far. *)
Record state : Type := mkState {
  importItems : ImportItemsMap;
  trace : list effect
}.

(** [updateOrAddItem].  The function reads the entry before it awaits
    the lookup and writes the store after it, so other events may
    have been handled in between: [snapshot] is the store as read
    before the lookup, [st] the state the update meets. *)
Definition updateOrAddItemFrom
    (snapshot : ImportItemsMap) (st : state) (importData : Payload.t) : state :=
  if negb (String.eqb (toLowerCase (Payload.source importData)) "csv") then st
  else
    let status := Payload.status importData in
    let '(databaseId, collectionId) :=
      parseResourceId (Payload.resourceId importData) in
    let current := get snapshot (Payload.id importData) in
    let collectionName := resolveCollectionName current databaseId collectionId in
    let items := updateItems (importItems st) importData collectionName in
    mkState items
      (trace st ++
         if String.eqb status "completed" || String.eqb status "failed" then
           CallShowCompletionNotification databaseId collectionId importData
           :: showCompletionNotification databaseId collectionId importData
         else [])%list.

(** An event handled with nothing in between. *)
Definition updateOrAddItem (st : state) (importData : Payload.t) : state :=
  updateOrAddItemFrom (importItems st) st importData.

(** A feed of events, each handled before the next arrives. *)
Definition run (st : state) (events : list Payload.t) : state :=
  fold_left updateOrAddItem events st.

(** Every way a feed can be handled.  The events stand in the order in
    which their updates reach the store; each update meets the current
    state, with the entry read from any store (an earlier one when
    other events were handled during the lookup). *)
Inductive handles : state -> list Payload.t -> state -> Prop :=
| handles_nil : forall st, handles st [] st
| handles_cons : forall snapshot st importData events st',
    handles (updateOrAddItemFrom snapshot st importData) events st' ->
    handles st (importData :: events) st'.

End Component.

(** ** A [JSON.parse] to run the component on

    The JSON grammar (ECMA-404) read off a byte string: white space,
    the three literals, numbers, strings with their escapes, arrays and
    objects; the whole text must be one value.  A [\uXXXX] escape is
    written out as the UTF-8 bytes of its code unit.  The properties
    below hold for every [JSON_parse]; this one gives them inputs. *)
Module Json.

Definition quote : ascii := ascii_of_nat 34.
Definition backslash : ascii := ascii_of_nat 92.

(** [s] between double quotes. *)
Definition quoted (s : string) : string :=
  String quote (s ++ String quote EmptyString).

Definition is_ws (c : ascii) : bool :=
  let n := nat_of_ascii c in
  Nat.eqb n 32 || Nat.eqb n 9 || Nat.eqb n 10 || Nat.eqb n 13.

Definition is_digit (c : ascii) : bool :=
  let n := nat_of_ascii c in (48 <=? n)%nat && (n <=? 57)%nat.

Fixpoint skip_ws (s : string) : string :=
  match s with
  | String c rest => if is_ws c then skip_ws rest else s
  | EmptyString => s
  end.

(** The longest run of digits at the head of [s], and what follows. *)
Fixpoint digits (s : string) : string * string :=
  match s with
  | String c rest =>
      if is_digit c then
        let '(ds, after) := digits rest in (String c ds, after)
      else (EmptyString, s)
  | EmptyString => (EmptyString, s)
  end.

Fixpoint strip_prefix (p s : string) : option string :=
  match p, s with
  | EmptyString, _ => Some s
  | String a p', String b s' => if Ascii.eqb a b then strip_prefix p' s' else None
  | String _ _, EmptyString => None
  end.

(** number = [-] int [frac] [exp] *)
Definition parse_number (s : string) : option (string * string) :=
  let '(sign, s1) :=
    match s with
    | String "-" rest => ("-", rest)
    | _ => ("", s)
    end in
  let '(int, s2) := digits s1 in
  match int with
  | EmptyString => None
  | String "0" (String _ _) => None
  | _ =>
      let frac :=
        match s2 with
        | String "." rest =>
            let '(ds, after) := digits rest in
            if truthy ds then Some ("." ++ ds, after) else None
        | _ => Some ("", s2)
        end in
      match frac with
      | None => None
      | Some (fr, s3) =>
          match s3 with
          | String e rest =>
              if Ascii.eqb e "e" || Ascii.eqb e "E" then
                let '(sg, rest') :=
                  match rest with
                  | String "+" r => ("+", r)
                  | String "-" r => ("-", r)
                  | _ => ("", rest)
                  end in
                let '(ds, after) := digits rest' in
                if truthy ds
                then Some (sign ++ int ++ fr ++ String e sg ++ ds, after)
                else None
              else Some (sign ++ int ++ fr, s3)
          | EmptyString => Some (sign ++ int ++ fr, s3)
          end
      end
  end.

Definition hex_digit (c : ascii) : option nat :=
  let n := nat_of_ascii c in
  if (48 <=? n)%nat && (n <=? 57)%nat then Some (n - 48)
  else if (65 <=? n)%nat && (n <=? 70)%nat then Some (n - 55)
  else if (97 <=? n)%nat && (n <=? 102)%nat then Some (n - 87)
  else None.

Definition utf8 (n : nat) (tail : string) : string :=
  if (n <? 128)%nat then String (ascii_of_nat n) tail
  else if (n <? 2048)%nat then
    String (ascii_of_nat (192 + n / 64))
      (String (ascii_of_nat (128 + n mod 64)) tail)
  else
    String (ascii_of_nat (224 + n / 4096))
      (String (ascii_of_nat (128 + (n / 64) mod 64))
         (String (ascii_of_nat (128 + n mod 64)) tail)).

Definition escape (c : ascii) : option ascii :=
  if Ascii.eqb c quote || Ascii.eqb c backslash || Ascii.eqb c "/" then Some c
  else if Ascii.eqb c "b" then Some (ascii_of_nat 8)
  else if Ascii.eqb c "f" then Some (ascii_of_nat 12)
  else if Ascii.eqb c "n" then Some (ascii_of_nat 10)
  else if Ascii.eqb c "r" then Some (ascii_of_nat 13)
  else if Ascii.eqb c "t" then Some (ascii_of_nat 9)
  else None.

(** The characters of a string after its opening quote, up to the
    closing one. *)
Fixpoint parse_chars (s : string) : option (string * string) :=
  match s with
  | EmptyString => None
  | String c rest =>
      if Ascii.eqb c quote then Some (EmptyString, rest)
      else if Ascii.eqb c backslash then
        match rest with
        | String "u" (String h1 (String h2 (String h3 (String h4 rest')))) =>
            match hex_digit h1, hex_digit h2, hex_digit h3, hex_digit h4 with
            | Some a, Some b, Some c', Some d =>
                match parse_chars rest' with
                | Some (body, after) =>
                    Some (utf8 (((a * 16 + b) * 16 + c') * 16 + d) body, after)
                | None => None
                end
            | _, _, _, _ => None
            end
        | String e rest' =>
            match escape e, parse_chars rest' with
            | Some c', Some (body, after) => Some (String c' body, after)
            | _, _ => None
            end
        | EmptyString => None
        end
      else if (nat_of_ascii c <? 32)%nat then None
      else
        match parse_chars rest with
        | Some (body, after) => Some (String c body, after)
        | None => None
        end
  end.

(** A value at the head of [s] and what follows it; [fuel] bounds the
    number of values, elements and members read. *)
Fixpoint parse_value (fuel : nat) (s : string) : option (jsval * string) :=
  match fuel with
  | O => None
  | S fuel =>
      match skip_ws s with
      | EmptyString => None
      | String c rest as s' =>
          if Ascii.eqb c "{" then
            match skip_ws rest with
            | String "}" after => Some (JObj [], after)
            | _ => parse_members fuel rest []
            end
          else if Ascii.eqb c "[" then
            match skip_ws rest with
            | String "]" after => Some (JArr [], after)
            | _ => parse_elements fuel rest []
            end
          else if Ascii.eqb c quote then
            match parse_chars rest with
            | Some (str, after) => Some (JStr str, after)
            | None => None
            end
          else if Ascii.eqb c "t" then
            option_map (pair (JBool true)) (strip_prefix "true" s')
          else if Ascii.eqb c "f" then
            option_map (pair (JBool false)) (strip_prefix "false" s')
          else if Ascii.eqb c "n" then
            option_map (pair JNull) (strip_prefix "null" s')
          else
            match parse_number s' with
            | Some (lit, after) => Some (JNum lit, after)
            | None => None
            end
      end
  end

with parse_elements (fuel : nat) (s : string) (seen : list jsval)
  : option (jsval * string) :=
  match fuel with
  | O => None
  | S fuel =>
      match parse_value fuel s with
      | Some (v, after) =>
          match skip_ws after with
          | String "," more => parse_elements fuel more (seen ++ [v])%list
          | String "]" more => Some (JArr (seen ++ [v])%list, more)
          | _ => None
          end
      | None => None
      end
  end

with parse_members (fuel : nat) (s : string) (seen : list (string * jsval))
  : option (jsval * string) :=
  match fuel with
  | O => None
  | S fuel =>
      match skip_ws s with
      | String c rest =>
          if Ascii.eqb c quote then
            match parse_chars rest with
            | Some (key, after) =>
                match skip_ws after with
                | String ":" after' =>
                    match parse_value fuel after' with
                    | Some (v, after'') =>
                        match skip_ws after'' with
                        | String "," more =>
                            parse_members fuel more (seen ++ [(key, v)])%list
                        | String "}" more =>
                            Some (JObj (seen ++ [(key, v)])%list, more)
                        | _ => None
                        end
                    | None => None
                    end
                | _ => None
                end
            | None => None
            end
          else None
      | EmptyString => None
      end
  end.

(** [JSON.parse(text)]: [None] stands for the [SyntaxError]. *)
Definition parse (text : string) : option jsval :=
  match parse_value (2 * String.length text + 2) text with
  | Some (v, after) =>
      match skip_ws after with
      | EmptyString => Some v
      | String _ _ => None
      end
  | None => None
  end.

End Json.

(** ** Counting over traces and feeds *)

(** The source test of [updateOrAddItem]. *)
Definition isCsv (importData : Payload.t) : bool :=
  String.eqb (toLowerCase (Payload.source importData)) "csv".

(** How often [showCompletionNotification] was entered for the job
    [id]. *)
Fixpoint notifyCalls (id : string) (tr : list effect) : nat :=
  match tr with
  | [] => 0
  | CallShowCompletionNotification _ _ payload :: rest =>
      (if String.eqb (Payload.id payload) id then 1 else 0) + notifyCalls id rest
  | _ :: rest => notifyCalls id rest
  end.

(** The notifications posted, in order. *)
Fixpoint notifications (tr : list effect) : list Notification.t :=
  match tr with
  | [] => []
  | AddNotification n :: rest => n :: notifications rest
  | _ :: rest => notifications rest
  end.

(** The CSV events of a feed that report [completed] or [failed] for
    the job [id]. *)
Fixpoint terminalEvents (id : string) (events : list Payload.t) : nat :=
  match events with
  | [] => 0
  | importData :: rest =>
      (if isCsv importData && String.eqb (Payload.id importData) id
          && isDone (Payload.status importData)
       then 1 else 0) + terminalEvents id rest
  end.

(** ** Sample data: a page, a directory, events *)
Module Sample.

Definition page : Page.t :=
  Page.make "/console" (Some "fra") (Some "shop") (Some "col9").

(** A directory that knows one collection. *)
Definition directory (databaseId : option string) (collectionId : string)
  : option string :=
  if same_opt databaseId (Some "db1") && String.eqb collectionId "col1"
  then Some "Users" else None.

Definition event (id status : string) : Payload.t :=
  Payload.make id "csv" status (Some "db1:col1") ErrorsMissing.

Definition failure (id : string) (entries : list string) : Payload.t :=
  Payload.make id "csv" "failed" (Some "db1:col1") (ErrorsArray entries).

Definition empty : state := mkState [] [].

Definition holding (id status : string) (collection : option string) : state :=
  mkState [(id, ImportItem.make status collection)] [].

Definition step : state -> Payload.t -> state :=
  updateOrAddItem Json.parse directory page.

Definition feed : state -> list Payload.t -> state :=
  run Json.parse directory page.

Definition notify : option string -> option string -> Payload.t -> list effect :=
  showCompletionNotification Json.parse page.

End Sample.

(** ** Rendering and the subscription *)

(** The keys of the store, in the order the rows are rendered. *)
Definition keys (items : ImportItemsMap) : list string := map fst items.

(** One row of the [{#each}] block: its key, the label it shows, the
    [is-danger] class and the [--graph-size] percentage. *)
Module Row.
Record t : Type := make {
  key : string;
  label : string;
  danger : bool;
  graph : Z
}.
End Row.

(** [{#each [...$importItems.entries()] as [key, value] (key)}] *)
Definition rows (items : ImportItemsMap) : list Row.t :=
  map (fun entry : string * ImportItem.t =>
         let '(key, value) := entry in
         Row.make key
           (text (ImportItem.status value) (ImportItem.collection value))
           (String.eqb (ImportItem.status value) "failed")
           (graphSize (ImportItem.status value)))
      items.

(** How often the documents were invalidated. *)
Fixpoint invalidations (tr : list effect) : nat :=
  match tr with
  | [] => 0
  | Invalidate DOCUMENTS :: rest => 1 + invalidations rest
  | _ :: rest => invalidations rest
  end.

(** The CSV events of a feed that report [completed], for any job. *)
Fixpoint completedEvents (events : list Payload.t) : nat :=
  match events with
  | [] => 0
  | importData :: rest =>
      (if isCsv importData && String.eqb (Payload.status importData) "completed"
       then 1 else 0) + completedEvents rest
  end.

(** A message of the realtime channel. *)
Module Response.
Record t : Type := make {
  channels : list string;
  events : list string;
  payload : Payload.t
}.
End Response.

Section Mount.

Variable JSON_parse : string -> option jsval.
Variable getCollection : option string -> string -> option string.
Variable page : Page.t.

(** [getProjectId()], the project the console shows. *)
Variable projectId : string.

(** The callback [onMount] subscribes to the [console] channel; the
    event name is looked up as it is written, star included. *)
Definition subscriber
    (snapshot : ImportItemsMap) (st : state) (response : Response.t) : state :=
  if negb (includes (Response.channels response) ("projects." ++ projectId))
  then st
  else if includes (Response.events response) "migrations.*"
  then updateOrAddItemFrom JSON_parse getCollection page snapshot st
         (Response.payload response)
  else st.

End Mount.

(** * Properties *)

(** ** Strings *)

Lemma eqb_neq_false (a b : string) : a <> b -> String.eqb a b = false.
Proof. intro H. apply String.eqb_neq. exact H. Qed.

Lemma append_assoc (a b c : string) : (a ++ b) ++ c = a ++ b ++ c.
Proof.
  induction a as [|x a IH]; simpl.
  - reflexivity.
  - rewrite IH. reflexivity.
Qed.

Lemma split_not_nil (sep : ascii) (s : string) : split sep s <> [].
Proof.
  destruct s as [|c rest]; simpl.
  - discriminate.
  - destruct (Ascii.eqb c sep); [discriminate|].
    destruct (split sep rest); discriminate.
Qed.

Lemma split_without_sep (sep : ascii) (s : string) :
  includes_char sep s = false -> split sep s = [s].
Proof.
  induction s as [|c rest IH]; simpl; intro H.
  - reflexivity.
  - apply orb_false_iff in H. destruct H as [Hc Hrest].
    rewrite Hc, (IH Hrest). reflexivity.
Qed.

Lemma split_at_first_sep (sep : ascii) (d rest : string) :
  includes_char sep d = false ->
  split sep (d ++ String sep rest) = d :: split sep rest.
Proof.
  induction d as [|c d IH]; simpl; intro H.
  - rewrite Ascii.eqb_refl. reflexivity.
  - apply orb_false_iff in H. destruct H as [Hc Hd].
    rewrite Hc, (IH Hd). reflexivity.
Qed.

Lemma split_with_sep (sep : ascii) (s : string) :
  includes_char sep s = true ->
  exists d c more, split sep s = d :: c :: more.
Proof.
  induction s as [|c rest IH]; simpl; intro H.
  - discriminate.
  - destruct (Ascii.eqb c sep) eqn:Hc.
    + destruct (split sep rest) as [|p ps] eqn:Hs.
      * exfalso. exact (split_not_nil _ _ Hs).
      * exists EmptyString, p, ps. reflexivity.
    + simpl in H. destruct (IH H) as (d & c' & more & Hs).
      rewrite Hs. exists (String c d), c', more. reflexivity.
Qed.

(** ** Progress and labels *)

(** C5: [graphSize] (the spec's progressPercent) is a total function of
    the status string: 10 for pending, 30 for processing, 60 for
    uploading, 100 for completed and for failed, and 30 for every other
    string. *)
Theorem graphSize_table :
  graphSize "pending" = 10%Z /\
  graphSize "processing" = 30%Z /\
  graphSize "uploading" = 60%Z /\
  graphSize "completed" = 100%Z /\
  graphSize "failed" = 100%Z /\
  (forall status : string,
      status <> "pending" -> status <> "processing" -> status <> "uploading" ->
      status <> "completed" -> status <> "failed" ->
      graphSize status = 30%Z).
Proof.
  repeat split.
  intros status H1 H2 H3 H4 H5. unfold graphSize.
  rewrite !eqb_neq_false by assumption. reflexivity.
Qed.

Lemma graphSize_table_witness : graphSize "queued" = 30%Z.
Proof.
  apply (proj2 (proj2 (proj2 (proj2 (proj2 graphSize_table))))); discriminate.
Defined.

(** X21: the row labels as [text] builds them.  For completed and
    failed with a known name the label is
    "Import to <b>name</b> status"; with the name unknown only the
    name markup is left out, the word "to" and both blanks stay.  For
    processing it is "Importing CSV file to <b>name</b>", and
    " to <b>name</b>" is left out as a whole when the name is unknown.
    For every other status it is the preparing message. *)
Theorem text_labels :
  (forall status name,
      isDone status = true -> name <> "" ->
      text status (Some name) = "Import to <b>" ++ name ++ "</b> " ++ status) /\
  (forall status name,
      isDone status = true -> truthy_opt name = false ->
      text status name = "Import to  " ++ status) /\
  (forall name,
      name <> "" ->
      text "processing" (Some name) = "Importing CSV file to <b>" ++ name ++ "</b>") /\
  (forall name,
      truthy_opt name = false -> text "processing" name = "Importing CSV file") /\
  (forall status name,
      isDone status = false -> status <> "processing" ->
      text status name = "Preparing CSV for import...").
Proof.
  repeat split.
  - intros status name Hdone Hname. unfold text, isDone in *. rewrite Hdone.
    destruct name as [|c name]; [congruence|].
    simpl. rewrite append_assoc. reflexivity.
  - intros status name Hdone Hname. unfold text, isDone in *. rewrite Hdone.
    destruct name as [[|c name]|]; simpl in Hname; try discriminate; reflexivity.
  - intros name Hname. destruct name as [|c name]; [congruence|]. reflexivity.
  - intros name Hname.
    destruct name as [[|c name]|]; simpl in Hname; try discriminate; reflexivity.
  - intros status name Hdone Hproc. unfold text, isDone in *. rewrite Hdone.
    rewrite (eqb_neq_false _ _ Hproc). reflexivity.
Qed.

Lemma text_labels_witness :
  text "failed" (Some "Users") = "Import to <b>Users</b> failed" /\
  text "completed" None = "Import to  completed" /\
  text "processing" (Some "Users") = "Importing CSV file to <b>Users</b>" /\
  text "processing" (Some "") = "Importing CSV file" /\
  text "uploading" (Some "Users") = "Preparing CSV for import...".
Proof.
  destruct text_labels as (Hdone & Hbare & Hproc & Hprocbare & Hother).
  split; [|split; [|split; [|split]]].
  - apply (Hdone "failed" "Users"); [reflexivity | discriminate].
  - apply (Hbare "completed" None); reflexivity.
  - apply (Hproc "Users"); discriminate.
  - apply (Hprocbare (Some "")); reflexivity.
  - apply (Hother "uploading" (Some "Users")); [reflexivity | discriminate].
Defined.

(** C6: for a completed or failed job whose collection name is unknown
    the claim has the collection clause left out of the label, as the
    processing branch does (there " to <b>name</b>" goes as a whole).
    The terminal branch keeps the word "to" and both blanks around the
    missing name: the label is "Import to  completed", not
    "Import completed". *)
Lemma terminal_label_keeps_dangling_to :
  text "completed" None = "Import to  completed"
  /\ text "failed" (Some "") = "Import to  failed"
  /\ text "completed" None <> "Import completed"
  /\ text "processing" None = "Importing CSV file".
Proof.
  split; [reflexivity|]. split; [reflexivity|]. split; [|reflexivity].
  vm_compute. discriminate.
Qed.

(** ** The parts of a resource id *)

(** The claim of C8 fails where the id is absent: the database part is
    the empty string, not undefined; and on an id without a colon the
    database part is the whole id. *)
Lemma parseResourceId_absent_not_undefined :
  parseResourceId None = (Some "", None) /\
  fst (parseResourceId None) <> None /\
  parseResourceId (Some "db1") = (Some "db1", None).
Proof. repeat split. discriminate. Qed.

(** C8, amended: the resource id is split on colons.  The database id
    is the text before the first colon, the whole text when there is no
    colon and the empty string when the id is absent: it is never
    undefined.  The collection id is the text between the first colon
    and the second (or the end); it is undefined exactly when the id is
    absent or has no colon. *)
Theorem parseResourceId_parts :
  (forall resourceId, exists d, fst (parseResourceId resourceId) = Some d) /\
  parseResourceId None = (Some "", None) /\
  (forall s, includes_char ":" s = false ->
             parseResourceId (Some s) = (Some s, None)) /\
  (forall d c, includes_char ":" d = false -> includes_char ":" c = false ->
               parseResourceId (Some (d ++ ":" ++ c)) = (Some d, Some c)) /\
  (forall d c more,
      includes_char ":" d = false -> includes_char ":" c = false ->
      parseResourceId (Some (d ++ ":" ++ c ++ ":" ++ more)) = (Some d, Some c)) /\
  (forall resourceId,
      snd (parseResourceId resourceId) = None <->
      match resourceId with
      | None => True
      | Some s => includes_char ":" s = false
      end).
Proof.
  repeat split.
  - intro resourceId. unfold parseResourceId.
    destruct (split ":" match resourceId with Some r => r | None => "" end)
      as [|p ps] eqn:Hs.
    + exfalso. exact (split_not_nil _ _ Hs).
    + exists p. reflexivity.
  - intros s Hs. unfold parseResourceId. rewrite (split_without_sep _ _ Hs).
    reflexivity.
  - intros d c Hd Hc. unfold parseResourceId. simpl append.
    rewrite (split_at_first_sep _ _ _ Hd), (split_without_sep _ _ Hc).
    reflexivity.
  - intros d c more Hd Hc. unfold parseResourceId. simpl append.
    rewrite (split_at_first_sep _ _ _ Hd), (split_at_first_sep _ _ _ Hc).
    reflexivity.
  - destruct resourceId as [s|]; [|trivial].
    unfold parseResourceId. intro H.
    destruct (includes_char ":" s) eqn:Hs; [|reflexivity].
    destruct (split_with_sep _ _ Hs) as (d & c & more & Hsplit).
    rewrite Hsplit in H. discriminate.
  - destruct resourceId as [s|]; [|reflexivity].
    intro Hs. unfold parseResourceId. rewrite (split_without_sep _ _ Hs).
    reflexivity.
Qed.

Lemma parseResourceId_parts_witness :
  parseResourceId (Some "db1:col1") = (Some "db1", Some "col1") /\
  parseResourceId (Some "db1:col1:extra") = (Some "db1", Some "col1") /\
  parseResourceId (Some "db1") = (Some "db1", None).
Proof.
  destruct parseResourceId_parts as (_ & _ & Hbare & Hpair & Hmore & _).
  split; [|split].
  - apply (Hpair "db1" "col1"); reflexivity.
  - apply (Hmore "db1" "col1" "extra"); reflexivity.
  - apply (Hbare "db1"); reflexivity.
Defined.

(** ** The store *)

Lemma get_set_same (items : ImportItemsMap) (key : string) (value : ImportItem.t) :
  get (set items key value) key = Some value.
Proof.
  induction items as [|[k v] rest IH]; simpl.
  - rewrite String.eqb_refl. reflexivity.
  - destruct (String.eqb k key) eqn:Hk; simpl; rewrite Hk.
    + reflexivity.
    + exact IH.
Qed.

Lemma get_set_other (items : ImportItemsMap) (key key' : string) (value : ImportItem.t) :
  key <> key' -> get (set items key value) key' = get items key'.
Proof.
  intro Hne. induction items as [|[k v] rest IH]; simpl.
  - rewrite (eqb_neq_false _ _ Hne). reflexivity.
  - destruct (String.eqb k key) eqn:Hk; simpl.
    + apply String.eqb_eq in Hk. subst k.
      rewrite (eqb_neq_false _ _ Hne). reflexivity.
    + rewrite IH. reflexivity.
Qed.

(** ** Reconciliation *)

Section Reconciliation.

Variable JSON_parse : string -> option jsval.
Variable getCollection : option string -> string -> option string.
Variable page : Page.t.

Local Abbreviation step := (updateOrAddItemFrom JSON_parse getCollection page).
Local Abbreviation resolve := (resolveCollectionName getCollection).

(** The update leaves the entries of other jobs alone. *)
Lemma updateItems_other items importData collectionName id :
  Payload.id importData <> id ->
  get (updateItems items importData collectionName) id = get items id.
Proof.
  intro Hne. unfold updateItems.
  match goal with |- context [if ?b then _ else _] => destruct b end.
  - reflexivity.
  - apply get_set_other. exact Hne.
Qed.

(** The two halves of the skip rule. *)
Lemma updateItems_same_status items importData collectionName e :
  get items (Payload.id importData) = Some e ->
  ImportItem.status e = Payload.status importData ->
  updateItems items importData collectionName = items.
Proof.
  intros Hget Hst. unfold updateItems. rewrite Hget, Hst, String.eqb_refl.
  rewrite orb_true_r. reflexivity.
Qed.

Lemma updateItems_stale items importData collectionName e :
  get items (Payload.id importData) = Some e ->
  isDone (ImportItem.status e) = true ->
  isInProgress (Payload.status importData) = true ->
  updateItems items importData collectionName = items.
Proof.
  intros Hget Hdone Hprog. unfold updateItems. rewrite Hget, Hdone, Hprog.
  reflexivity.
Qed.

(** Outside the skip rule the entry is written. *)
Lemma updateItems_written items importData collectionName e :
  get items (Payload.id importData) = Some e ->
  isInProgress (Payload.status importData) = false ->
  ImportItem.status e <> Payload.status importData ->
  get (updateItems items importData collectionName) (Payload.id importData)
  = Some (ImportItem.make (Payload.status importData) collectionName).
Proof.
  intros Hget Hprog Hne. unfold updateItems.
  rewrite Hget, Hprog, (eqb_neq_false _ _ Hne), andb_false_r. simpl.
  apply get_set_same.
Qed.

(** What one event does to the store and to the trace. *)
Lemma step_not_csv snapshot st importData :
  isCsv importData = false -> step snapshot st importData = st.
Proof.
  intro H. unfold updateOrAddItemFrom. unfold isCsv in H. rewrite H.
  reflexivity.
Qed.

Lemma step_items snapshot st importData :
  isCsv importData = true ->
  importItems (step snapshot st importData)
  = updateItems (importItems st) importData
      (resolve (get snapshot (Payload.id importData))
         (fst (parseResourceId (Payload.resourceId importData)))
         (snd (parseResourceId (Payload.resourceId importData)))).
Proof.
  intro H. unfold updateOrAddItemFrom. unfold isCsv in H. rewrite H. simpl.
  destruct (parseResourceId (Payload.resourceId importData)) as [d c].
  reflexivity.
Qed.

Lemma step_trace snapshot st importData :
  isCsv importData = true ->
  trace (step snapshot st importData)
  = (trace st ++
       if isDone (Payload.status importData) then
         CallShowCompletionNotification
           (fst (parseResourceId (Payload.resourceId importData)))
           (snd (parseResourceId (Payload.resourceId importData)))
           importData
         :: showCompletionNotification JSON_parse page
              (fst (parseResourceId (Payload.resourceId importData)))
              (snd (parseResourceId (Payload.resourceId importData)))
              importData
       else [])%list.
Proof.
  intro H. unfold updateOrAddItemFrom. unfold isCsv in H. rewrite H. simpl.
  destruct (parseResourceId (Payload.resourceId importData)) as [d c].
  reflexivity.
Qed.

(** An event keeps the entry of a job in three cases: it is about
    another job, it is not a CSV event, or the skip rule applies. *)
Lemma step_keeps_entry snapshot st importData id e :
  get (importItems st) id = Some e ->
  (Payload.id importData = id ->
   (isDone (ImportItem.status e) = true /\
    isInProgress (Payload.status importData) = true)
   \/ Payload.status importData = ImportItem.status e) ->
  get (importItems (step snapshot st importData)) id = Some e.
Proof.
  intros Hget Hrule.
  destruct (isCsv importData) eqn:Hcsv.
  - rewrite (step_items _ _ _ Hcsv).
    destruct (String.eqb (Payload.id importData) id) eqn:Hid.
    + apply String.eqb_eq in Hid. specialize (Hrule Hid). subst id.
      destruct Hrule as [[Hdone Hprog] | Hsame].
      * rewrite (updateItems_stale _ _ _ _ Hget Hdone Hprog). exact Hget.
      * rewrite (updateItems_same_status _ _ _ e Hget); [exact Hget|].
        symmetry. exact Hsame.
    + apply String.eqb_neq in Hid. rewrite updateItems_other by exact Hid.
      exact Hget.
  - rewrite (step_not_csv _ _ _ Hcsv). exact Hget.
Qed.

(** The feed handled event by event is one of the ways to handle it. *)
Lemma run_handles st events :
  handles JSON_parse getCollection page st events
    (run JSON_parse getCollection page st events).
Proof.
  revert st. induction events as [|importData events IH]; intro st; simpl.
  - constructor.
  - apply handles_cons with (snapshot := importItems st). apply IH.
Qed.

(** C1, amended: once the store holds a job as completed or failed,
    no later event for that job whose status is pending, processing
    or uploading, or the status the entry has, changes the entry,
    however the feed is handled; an event for that job with any other
    status (the other terminal status, an unrecognized string) is
    written over it. *)
Theorem terminal_entry_kept (id : string) (e : ImportItem.t) :
  isDone (ImportItem.status e) = true ->
  (forall st events st',
      handles JSON_parse getCollection page st events st' ->
      get (importItems st) id = Some e ->
      Forall (fun importData =>
                Payload.id importData = id ->
                isInProgress (Payload.status importData) = true
                \/ Payload.status importData = ImportItem.status e) events ->
      get (importItems st') id = Some e)
  /\
  (forall snapshot st importData,
      isCsv importData = true ->
      Payload.id importData = id ->
      get (importItems st) id = Some e ->
      isInProgress (Payload.status importData) = false ->
      Payload.status importData <> ImportItem.status e ->
      exists collectionName,
        get (importItems (step snapshot st importData)) id
        = Some (ImportItem.make (Payload.status importData) collectionName)).
Proof.
  intro Hdone. split.
  - intros st events st' Hrun. induction Hrun as [st|snapshot st ev events st' _ IH].
    + intros Hget _. exact Hget.
    + intros Hget Hall. inversion Hall as [|? ? Hev Hrest]; subst.
      apply IH; [|exact Hrest].
      apply step_keeps_entry; [exact Hget|].
      intro Hid. destruct (Hev Hid) as [Hprog | Hsame].
      * left. split; assumption.
      * right. exact Hsame.
  - intros snapshot st ev Hcsv Hid Hget Hprog Hne. subst id.
    rewrite (step_items _ _ _ Hcsv). eexists.
    apply updateItems_written with (e := e); [exact Hget | exact Hprog |].
    intro Heq. apply Hne. symmetry. exact Heq.
Qed.

(** C3, amended: an event whose status is the one the store already
    holds for the job leaves the whole store as it is, whatever
    collection name was resolved for it: a name that has just become
    known is not written. *)
Theorem same_status_no_write snapshot st importData e :
  get (importItems st) (Payload.id importData) = Some e ->
  ImportItem.status e = Payload.status importData ->
  importItems (step snapshot st importData) = importItems st.
Proof.
  intros Hget Hsame.
  destruct (isCsv importData) eqn:Hcsv.
  - rewrite (step_items _ _ _ Hcsv).
    apply updateItems_same_status with (e := e); assumption.
  - rewrite (step_not_csv _ _ _ Hcsv). reflexivity.
Qed.

(** C9: an event whose source, lower-cased, is not "csv" leaves the
    state as it is: the store is unchanged and nothing is added to
    the trace, so no notification is triggered. *)
Theorem not_csv_ignored snapshot st importData :
  toLowerCase (Payload.source importData) <> "csv" ->
  step snapshot st importData = st
  /\ importItems (step snapshot st importData) = importItems st
  /\ trace (step snapshot st importData) = trace st.
Proof.
  intro H.
  assert (Hstep : step snapshot st importData = st).
  { apply step_not_csv. unfold isCsv. apply eqb_neq_false. exact H. }
  rewrite Hstep. repeat split.
Qed.

(** Counting in a trace. *)
Lemma notifyCalls_app id tr tr' :
  notifyCalls id (tr ++ tr') = notifyCalls id tr + notifyCalls id tr'.
Proof.
  induction tr as [|x tr IH]; simpl.
  - reflexivity.
  - destruct x; rewrite IH; lia.
Qed.

(** The notification routine posts and invalidates; it does not enter
    itself. *)
Lemma notifyCalls_showCompletionNotification id database collection payload :
  notifyCalls id (showCompletionNotification JSON_parse page database collection payload)
  = 0.
Proof.
  unfold showCompletionNotification.
  match goal with |- context [if ?b then [] else _] => destruct b end.
  - reflexivity.
  - simpl. destruct (String.eqb (Payload.status payload) "completed"); reflexivity.
Qed.

Lemma step_notifyCalls snapshot st importData id :
  notifyCalls id (trace (step snapshot st importData))
  = notifyCalls id (trace st) + terminalEvents id [importData].
Proof.
  simpl. destruct (isCsv importData) eqn:Hcsv.
  - rewrite (step_trace _ _ _ Hcsv), notifyCalls_app. f_equal.
    destruct (isDone (Payload.status importData)); simpl.
    + rewrite notifyCalls_showCompletionNotification.
      destruct (String.eqb (Payload.id importData) id); reflexivity.
    + rewrite andb_false_r. reflexivity.
  - rewrite (step_not_csv _ _ _ Hcsv). simpl. lia.
Qed.

(** C2, amended: the notification routine is entered once for every
    CSV event that reports completed or failed, whether or not the
    skip rule kept the store as it was: however a feed is handled,
    the number of entries into the routine for a job is the number of
    CSV events of the feed that report a terminal status for that
    job. *)
Theorem notification_per_terminal_event id st events st' :
  handles JSON_parse getCollection page st events st' ->
  notifyCalls id (trace st')
  = notifyCalls id (trace st) + terminalEvents id events.
Proof.
  intro Hrun. induction Hrun as [st|snapshot st ev events st' _ IH].
  - simpl. lia.
  - rewrite IH, step_notifyCalls. simpl. lia.
Qed.

End Reconciliation.

(** ** The completion notification *)

Section CompletionNotification.

Variable JSON_parse : string -> option jsval.
Variable page : Page.t.

Local Abbreviation notify := (showCompletionNotification JSON_parse page).

(** A success posts one notification and invalidates the documents. *)
Lemma notify_success database collection payload :
  Payload.status payload = "completed" ->
  exists n,
    Notification.type n = success /\
    notify database collection payload = [AddNotification n; Invalidate DOCUMENTS].
Proof.
  intro Hst. unfold showCompletionNotification. rewrite Hst. simpl.
  eexists. split; [|reflexivity]. reflexivity.
Qed.

(** With a truthy [errors] and another status, one error notification
    is posted, with the message found under [try] or else the
    default one. *)
Lemma notify_error database collection payload :
  Payload.status payload <> "completed" ->
  errors_truthy (Payload.errors payload) = true ->
  notify database collection payload
  = [AddNotification
       (Notification.make error
          match Payload.errors payload with
          | ErrorsArray entries =>
              match parsed_message JSON_parse entries with
              | Some m => m
              | None => JStr default_errorMessage
              end
          | _ => JStr default_errorMessage
          end
          true None)].
Proof.
  intros Hst Herr. unfold showCompletionNotification.
  rewrite (eqb_neq_false _ _ Hst), Herr. simpl. reflexivity.
Qed.

Lemma notify_silent database collection payload :
  Payload.status payload <> "completed" ->
  errors_truthy (Payload.errors payload) = false ->
  notify database collection payload = [].
Proof.
  intros Hst Herr. unfold showCompletionNotification.
  rewrite (eqb_neq_false _ _ Hst), Herr. reflexivity.
Qed.

(** C4, amended: the routine posts a notification if and only if the
    status is "completed" or the payload's [errors] field is truthy,
    which every array is, the empty one included, and every non-empty
    string; a payload that is not a success posts nothing exactly
    when its [errors] field is missing or falsy. *)
Theorem notification_iff database collection payload :
  ((exists n, In (AddNotification n) (notify database collection payload))
   <-> (Payload.status payload = "completed"
        \/ errors_truthy (Payload.errors payload) = true))
  /\ (forall entries,
         Payload.status payload <> "completed" ->
         Payload.errors payload = ErrorsArray entries ->
         exists n, notify database collection payload = [AddNotification n])
  /\ (Payload.status payload <> "completed" ->
      errors_truthy (Payload.errors payload) = false ->
      notify database collection payload = []).
Proof.
  split; [|split].
  - split.
    + intros [n Hin].
      destruct (String.eqb (Payload.status payload) "completed") eqn:Hst.
      * left. apply String.eqb_eq. exact Hst.
      * right. apply String.eqb_neq in Hst.
        destruct (errors_truthy (Payload.errors payload)) eqn:Herr; [reflexivity|].
        rewrite (notify_silent _ _ _ Hst Herr) in Hin. destruct Hin.
    + intro Hcond.
      destruct (String.eqb (Payload.status payload) "completed") eqn:Hst.
      * apply String.eqb_eq in Hst.
        destruct (notify_success database collection payload Hst) as (n & _ & Hn).
        exists n. rewrite Hn. left. reflexivity.
      * apply String.eqb_neq in Hst.
        destruct Hcond as [Hc | Herr]; [contradiction|].
        rewrite (notify_error _ _ _ Hst Herr). eexists. left. reflexivity.
  - intros entries Hst Herr. eexists. apply notify_error; [exact Hst|].
    rewrite Herr. reflexivity.
  - apply notify_silent.
Qed.

(** In the error branch with a first entry [e], the message is decided
    by what [JSON_parse e] gives. *)
Ltac error_branch Hst Herr Hparse :=
  rewrite notify_error; [|exact Hst|rewrite Herr; reflexivity];
  rewrite Herr; unfold parsed_message; simpl; rewrite Hparse.

(** C7: for a job that is not a success (a failed one) whose first
    error entry [JSON_parse] rejects, the one notification posted
    carries the fixed default failure message. *)
Theorem unparseable_error_falls_back database collection payload e rest :
  Payload.status payload <> "completed" ->
  Payload.errors payload = ErrorsArray (e :: rest) ->
  JSON_parse e = None ->
  notify database collection payload
  = [AddNotification
       (Notification.make error (JStr default_errorMessage) true None)].
Proof.
  intros Hst Herr Hparse.
  error_branch Hst Herr Hparse. reflexivity.
Qed.

(** C10, amended: for a job that is not a success (a failed one) whose
    first error entry parses to a value without a [message] field, the
    one notification posted has [undefined] as its message, not the
    default failure message, when the value is not [null]: an object
    without that key, an array, a string, a number, a boolean.  When
    the value is [null] the access throws inside the [try] and the
    default failure message is posted. *)
Theorem missing_message_is_undefined database collection payload e rest v :
  Payload.status payload <> "completed" ->
  Payload.errors payload = ErrorsArray (e :: rest) ->
  JSON_parse e = Some v ->
  (forall fields, v = JObj fields -> lookup_field "message" fields = None) ->
  (v <> JNull -> v <> JUndefined ->
   notify database collection payload
   = [AddNotification (Notification.make error JUndefined true None)]
   /\ JUndefined <> JStr default_errorMessage)
  /\ (v = JNull ->
      notify database collection payload
      = [AddNotification
           (Notification.make error (JStr default_errorMessage) true None)]).
Proof.
  intros Hst Herr Hparse Hfield. split.
  - intros Hnull Hundef. split; [|discriminate].
    error_branch Hst Herr Hparse.
    destruct v as [| |b|lit|str|elements|fields]; try reflexivity.
    + exfalso. apply Hundef. reflexivity.
    + exfalso. apply Hnull. reflexivity.
    + simpl. rewrite (Hfield fields eq_refl). reflexivity.
  - intro Hv. subst v. error_branch Hst Herr Hparse. reflexivity.
Qed.

(** X16: a first error entry that parses to an array, a string, a
    number or a boolean has no [message] property: the message posted
    is [undefined], not the default one. *)
Lemma parsed_without_fields_is_undefined database collection payload e rest v :
  Payload.status payload <> "completed" ->
  Payload.errors payload = ErrorsArray (e :: rest) ->
  JSON_parse e = Some v ->
  match v with JArr _ | JStr _ | JNum _ | JBool _ => True | _ => False end ->
  notify database collection payload
  = [AddNotification (Notification.make error JUndefined true None)].
Proof.
  intros Hst Herr Hparse Hv.
  error_branch Hst Herr Hparse.
  destruct v; try contradiction; reflexivity.
Qed.

(** X15: a parsed [null] has no properties: the access throws inside the
    [try] and the default message stays. *)
Lemma parsed_null_falls_back database collection payload e rest :
  Payload.status payload <> "completed" ->
  Payload.errors payload = ErrorsArray (e :: rest) ->
  JSON_parse e = Some JNull ->
  notify database collection payload
  = [AddNotification
       (Notification.make error (JStr default_errorMessage) true None)].
Proof.
  intros Hst Herr Hparse.
  error_branch Hst Herr Hparse. reflexivity.
Qed.

End CompletionNotification.

(** ** The properties on the sample data *)

Import Sample.

(** The claim of C1 fails for the other terminal status and for an
    unrecognized one: a job held as completed is overwritten by a
    later failed event, and by an event with the status "archived". *)
Lemma terminal_entry_overwritten :
  get (importItems (holding "m1" "completed" (Some "Users"))) "m1"
  = Some (ImportItem.make "completed" (Some "Users"))
  /\ get (importItems (step (holding "m1" "completed" (Some "Users"))
                         (event "m1" "failed"))) "m1"
     = Some (ImportItem.make "failed" (Some "Users"))
  /\ get (importItems (step (holding "m1" "completed" (Some "Users"))
                         (event "m1" "archived"))) "m1"
     = Some (ImportItem.make "archived" (Some "Users")).
Proof. split; [|split]; vm_compute; reflexivity. Qed.

Lemma terminal_entry_kept_witness :
  get (importItems
         (feed (holding "m1" "failed" None)
            [event "m1" "processing"; event "m2" "completed"; event "m1" "failed"]))
    "m1"
  = Some (ImportItem.make "failed" None)
  /\ exists collectionName,
       get (importItems (step (holding "m1" "failed" None) (event "m1" "completed")))
         "m1"
       = Some (ImportItem.make "completed" collectionName).
Proof.
  destruct (terminal_entry_kept Json.parse directory page
              "m1" (ImportItem.make "failed" None) eq_refl) as [Hkept Hwritten].
  split.
  - apply Hkept with (st := holding "m1" "failed" None)
                     (events := [event "m1" "processing"; event "m2" "completed";
                                 event "m1" "failed"]).
    + apply run_handles.
    + reflexivity.
    + constructor; [|constructor; [|constructor; [|constructor]]].
      * intros _. left. reflexivity.
      * intro H. discriminate H.
      * intros _. right. reflexivity.
  - apply (Hwritten (importItems (holding "m1" "failed" None))
             (holding "m1" "failed" None) (event "m1" "completed")).
    + reflexivity.
    + reflexivity.
    + reflexivity.
    + reflexivity.
    + discriminate.
Defined.

(** The claim of C2 fails on a repeated event: two identical completed
    events for one job enter the notification routine twice and post
    two notifications, although the second leaves the store as it
    is. *)
Lemma repeated_completed_notifies_twice :
  notifyCalls "m1"
    (trace (feed empty [event "m1" "completed"; event "m1" "completed"])) = 2
  /\ List.length
       (notifications
          (trace (feed empty [event "m1" "completed"; event "m1" "completed"]))) = 2
  /\ importItems (feed empty [event "m1" "completed"; event "m1" "completed"])
     = importItems (feed empty [event "m1" "completed"]).
Proof. split; [|split]; vm_compute; reflexivity. Qed.

Lemma notification_per_terminal_event_witness :
  notifyCalls "m1"
    (trace (feed empty [event "m1" "pending"; event "m1" "completed";
                        event "m2" "failed"; event "m1" "completed"]))
  = notifyCalls "m1" (trace empty)
    + terminalEvents "m1" [event "m1" "pending"; event "m1" "completed";
                           event "m2" "failed"; event "m1" "completed"].
Proof.
  apply (notification_per_terminal_event Json.parse directory page).
  apply run_handles.
Defined.

(** The claim of C3 fails where it makes its exception: the job is held
    as pending without a name, a second pending event resolves the
    name "Users" for the first time, and the entry keeps no name. *)
Lemma resolved_name_not_written :
  get (importItems (holding "m1" "pending" None)) "m1"
  = Some (ImportItem.make "pending" None)
  /\ resolveCollectionName directory
       (get (importItems (holding "m1" "pending" None)) "m1")
       (fst (parseResourceId (Payload.resourceId (event "m1" "pending"))))
       (snd (parseResourceId (Payload.resourceId (event "m1" "pending"))))
     = Some "Users"
  /\ get (importItems (step (holding "m1" "pending" None) (event "m1" "pending"))) "m1"
     = Some (ImportItem.make "pending" None).
Proof. split; [|split]; vm_compute; reflexivity. Qed.

Lemma same_status_no_write_witness :
  importItems (step (holding "m1" "pending" None) (event "m1" "pending"))
  = importItems (holding "m1" "pending" None).
Proof.
  apply (same_status_no_write Json.parse directory page
           (importItems (holding "m1" "pending" None))
           (holding "m1" "pending" None) (event "m1" "pending")
           (ImportItem.make "pending" None)); reflexivity.
Defined.

(** The claim of C4 fails on an empty array: a failed payload whose
    [errors] is an array without entries posts the default error
    notification. *)
Lemma empty_errors_still_notify :
  Payload.status (failure "m1" []) <> "completed"
  /\ Payload.errors (failure "m1" []) = ErrorsArray []
  /\ notify (Some "db1") (Some "col1") (failure "m1" [])
     = [AddNotification
          (Notification.make error (JStr default_errorMessage) true None)].
Proof. split; [discriminate|split; vm_compute; reflexivity]. Qed.

Lemma notification_iff_witness :
  (exists n, notify (Some "db1") (Some "col1") (failure "m1" []) = [AddNotification n])
  /\ notify (Some "db1") (Some "col1") (event "m1" "failed") = [].
Proof.
  split.
  - apply (proj1 (proj2 (notification_iff Json.parse page
                           (Some "db1") (Some "col1") (failure "m1" []))) []).
    + discriminate.
    + reflexivity.
  - apply (proj2 (proj2 (notification_iff Json.parse page
                           (Some "db1") (Some "col1") (event "m1" "failed")))).
    + discriminate.
    + reflexivity.
Defined.

Lemma unparseable_error_falls_back_witness :
  notify (Some "db1") (Some "col1") (failure "m1" ["Row 3: missing field"])
  = [AddNotification
       (Notification.make error (JStr default_errorMessage) true None)].
Proof.
  apply (unparseable_error_falls_back Json.parse page (Some "db1") (Some "col1")
           (failure "m1" ["Row 3: missing field"]) "Row 3: missing field" []).
  - discriminate.
  - reflexivity.
  - vm_compute. reflexivity.
Defined.

(** The claim of C10 fails on an entry that parses to [null]: it
    parses, it has no [message] field, and the notification carries the
    default failure message, not [undefined]. *)
Lemma null_entry_posts_default_message :
  Json.parse "null" = Some JNull
  /\ (forall fields, JNull = JObj fields -> lookup_field "message" fields = None)
  /\ notify (Some "db1") (Some "col1") (failure "m1" ["null"])
     = [AddNotification
          (Notification.make error (JStr default_errorMessage) true None)]
  /\ notify (Some "db1") (Some "col1") (failure "m1" ["null"])
     <> [AddNotification (Notification.make error JUndefined true None)].
Proof.
  split; [vm_compute; reflexivity|]. split; [intros fields H; discriminate H|].
  split; [vm_compute; reflexivity|]. vm_compute. discriminate.
Qed.

Lemma missing_message_is_undefined_witness :
  (notify (Some "db1") (Some "col1")
     (failure "m1" ["{" ++ Json.quoted "code" ++ ": 500}"])
   = [AddNotification (Notification.make error JUndefined true None)]
   /\ JUndefined <> JStr default_errorMessage)
  /\ notify (Some "db1") (Some "col1") (failure "m1" ["[]"])
     = [AddNotification (Notification.make error JUndefined true None)]
  /\ notify (Some "db1") (Some "col1") (failure "m1" [" null "])
     = [AddNotification
          (Notification.make error (JStr default_errorMessage) true None)].
Proof.
  split; [|split].
  - apply (missing_message_is_undefined Json.parse page (Some "db1") (Some "col1")
             (failure "m1" ["{" ++ Json.quoted "code" ++ ": 500}"])
             ("{" ++ Json.quoted "code" ++ ": 500}") []
             (JObj [("code", JNum "500")])).
    + discriminate.
    + reflexivity.
    + vm_compute. reflexivity.
    + intros fields H. inversion H. reflexivity.
    + discriminate.
    + discriminate.
  - apply (missing_message_is_undefined Json.parse page (Some "db1") (Some "col1")
             (failure "m1" ["[]"]) "[]" [] (JArr [])).
    + discriminate.
    + reflexivity.
    + vm_compute. reflexivity.
    + intros fields H. discriminate H.
    + discriminate.
    + discriminate.
  - apply (missing_message_is_undefined Json.parse page (Some "db1") (Some "col1")
             (failure "m1" [" null "]) " null " [] JNull).
    + discriminate.
    + reflexivity.
    + vm_compute. reflexivity.
    + intros fields H. discriminate H.
    + reflexivity.
Defined.

Lemma not_csv_ignored_witness :
  step (holding "m1" "pending" None)
    (Payload.make "m1" "Appwrite" "completed" (Some "db1:col1") ErrorsMissing)
  = holding "m1" "pending" None.
Proof.
  apply (not_csv_ignored Json.parse directory page
           (importItems (holding "m1" "pending" None))
           (holding "m1" "pending" None)
           (Payload.make "m1" "Appwrite" "completed" (Some "db1:col1") ErrorsMissing)).
  vm_compute. discriminate.
Defined.

(** The scenarios of the specification, run. *)
Example scenario_feed :
  let first := step empty (event "m1" "pending") in
  let second := step first (event "m1" "processing") in
  let third := step second (event "m1" "completed") in
  importItems first = [("m1", ImportItem.make "pending" (Some "Users"))]
  /\ graphSize "pending" = 10%Z
  /\ text "pending" (Some "Users") = "Preparing CSV for import..."
  /\ importItems second = [("m1", ImportItem.make "processing" (Some "Users"))]
  /\ text "processing" (Some "Users") = "Importing CSV file to <b>Users</b>"
  /\ importItems third = [("m1", ImportItem.make "completed" (Some "Users"))]
  /\ text "completed" (Some "Users") = "Import to <b>Users</b> completed"
  /\ notifications (trace third)
     = [Notification.make success (JStr "CSV import finished successfully.") true
          (Some [Button.make "View documents"
                   "/console/project-fra-shop/databases/database-db1/collection-col1"])]
  /\ In (Invalidate DOCUMENTS) (trace third).
Proof. vm_compute. repeat split. right. right. left. reflexivity. Qed.

Example scenario_failed_then_processing :
  get (importItems (step (holding "m1" "failed" None) (event "m1" "processing"))) "m1"
  = Some (ImportItem.make "failed" None).
Proof. reflexivity. Qed.

Example scenario_parsed_message :
  notify (Some "db1") (Some "col1")
    (failure "m1" ["{" ++ Json.quoted "message" ++ ":" ++ Json.quoted "Row 3: missing field" ++ "}"])
  = [AddNotification
       (Notification.make error (JStr "Row 3: missing field") true None)].
Proof. vm_compute. reflexivity. Qed.

Example scenario_null_entry :
  notify (Some "db1") (Some "col1") (failure "m1" ["null"])
  = [AddNotification
       (Notification.make error (JStr default_errorMessage) true None)].
Proof.
  apply (parsed_null_falls_back Json.parse page) with (e := "null") (rest := []).
  - discriminate.
  - reflexivity.
  - vm_compute. reflexivity.
Defined.

(** * Further properties of the component *)

(** ** Keys of the store *)

Lemma get_none_not_key (items : ImportItemsMap) (key : string) :
  get items key = None <-> ~ In key (keys items).
Proof.
  induction items as [|[k v] rest IH]; simpl.
  - split; [intros _ H; exact H | reflexivity].
  - destruct (String.eqb_spec k key) as [Heq | Hne].
    + split; [discriminate|]. intro H. exfalso. apply H. left. exact Heq.
    + rewrite IH. split.
      * intros H [Hk | Hin]; [exact (Hne Hk) | exact (H Hin)].
      * intros H Hin. apply H. right. exact Hin.
Qed.

Lemma keys_set_present (items : ImportItemsMap) key value e :
  get items key = Some e -> keys (set items key value) = keys items.
Proof.
  induction items as [|[k v] rest IH]; simpl.
  - discriminate.
  - destruct (String.eqb k key) eqn:Hk; simpl.
    + reflexivity.
    + intro H. rewrite (IH H). reflexivity.
Qed.

Lemma keys_set_absent (items : ImportItemsMap) key value :
  get items key = None -> keys (set items key value) = (keys items ++ [key])%list.
Proof.
  induction items as [|[k v] rest IH]; simpl.
  - reflexivity.
  - destruct (String.eqb k key) eqn:Hk; simpl.
    + discriminate.
    + intro H. rewrite (IH H). reflexivity.
Qed.

Section StoreInvariants.

Variable JSON_parse : string -> option jsval.
Variable getCollection : option string -> string -> option string.
Variable page : Page.t.

Local Abbreviation step := (updateOrAddItemFrom JSON_parse getCollection page).
Local Abbreviation resolved snapshot importData :=
  (resolveCollectionName getCollection
     (get snapshot (Payload.id importData))
     (fst (parseResourceId (Payload.resourceId importData)))
     (snd (parseResourceId (Payload.resourceId importData)))).

(** The update either keeps the keys or appends the event's id. *)
Lemma updateItems_keys items importData collectionName :
  keys (updateItems items importData collectionName) = keys items
  \/ (get items (Payload.id importData) = None
      /\ keys (updateItems items importData collectionName)
         = (keys items ++ [Payload.id importData])%list).
Proof.
  unfold updateItems.
  destruct (get items (Payload.id importData)) as [e|] eqn:Hget.
  - left. match goal with |- context [if ?b then _ else _] => destruct b end.
    + reflexivity.
    + apply keys_set_present with (e := e). exact Hget.
  - right. split; [reflexivity|]. apply keys_set_absent. exact Hget.
Qed.

Lemma step_keys snapshot st importData :
  keys (importItems (step snapshot st importData)) = keys (importItems st)
  \/ (isCsv importData = true
      /\ get (importItems st) (Payload.id importData) = None
      /\ keys (importItems (step snapshot st importData))
         = (keys (importItems st) ++ [Payload.id importData])%list).
Proof.
  destruct (isCsv importData) eqn:Hcsv.
  - rewrite (step_items _ _ _ _ _ _ Hcsv).
    destruct (updateItems_keys (importItems st) importData
                (resolved snapshot importData)) as [H | [Hnone H]].
    + left. exact H.
    + right. repeat split; assumption.
  - left. rewrite (step_not_csv _ _ _ _ _ _ Hcsv). reflexivity.
Qed.

(** An entry read after the update was there before, or carries the
    status of the event. *)
Lemma updateItems_get items importData collectionName id e :
  get (updateItems items importData collectionName) id = Some e ->
  get items id = Some e
  \/ (Payload.id importData = id
      /\ ImportItem.status e = Payload.status importData).
Proof.
  unfold updateItems.
  match goal with |- context [if ?b then _ else _] => destruct b end.
  - intro H. left. exact H.
  - destruct (String.eqb_spec (Payload.id importData) id) as [Heq | Hne].
    + subst id. rewrite get_set_same. intro H. inversion H. right. split; reflexivity.
    + rewrite (get_set_other _ _ _ _ Hne). intro H. left. exact H.
Qed.

(** X1: rows keep their place and new jobs are appended: however a feed is
    handled, the keys of the store afterwards are the keys before,
    followed by ids of CSV events of the feed, at most one per event. *)
Theorem keys_grow_at_end st events st' :
  handles JSON_parse getCollection page st events st' ->
  exists added,
    keys (importItems st') = (keys (importItems st) ++ added)%list
    /\ List.length added <= List.length events
    /\ Forall (fun key =>
                 exists importData,
                   In importData events /\ isCsv importData = true
                   /\ Payload.id importData = key) added.
Proof.
  intro Hrun. induction Hrun as [st|snapshot st ev events st' _ IH].
  - exists []. rewrite app_nil_r. repeat split; [simpl; lia | constructor].
  - destruct IH as (added & Hkeys & Hlen & Hall).
    assert (Hlater : Forall (fun key =>
                               exists importData,
                                 In importData (ev :: events)
                                 /\ isCsv importData = true
                                 /\ Payload.id importData = key) added).
    { apply Forall_impl with (2 := Hall).
      intros key (x & Hin & Hx). exists x. split; [right; exact Hin | exact Hx]. }
    destruct (step_keys snapshot st ev) as [Hsame | (Hcsv & _ & Happ)].
    + exists added. rewrite Hkeys, Hsame.
      repeat split; [simpl; lia | exact Hlater].
    + exists (Payload.id ev :: added). rewrite Hkeys, Happ, <- app_assoc.
      repeat split; [simpl; lia |].
      constructor; [|exact Hlater].
      exists ev. repeat split; [left; reflexivity | exact Hcsv].
Qed.

(** X2: the keyed [each] block needs distinct keys: a store with distinct
    keys has them still after any feed, so the rows rendered from it
    have pairwise distinct keys, one row per entry. *)
Theorem row_keys_distinct st events st' :
  handles JSON_parse getCollection page st events st' ->
  NoDup (keys (importItems st)) ->
  NoDup (map Row.key (rows (importItems st')))
  /\ List.length (rows (importItems st')) = size (importItems st').
Proof.
  intros Hrun Hnodup.
  assert (Hrows : forall items, map Row.key (rows items) = keys items).
  { intro items. unfold rows, keys. rewrite map_map. apply map_ext.
    intros [k v]. reflexivity. }
  split; [|unfold rows, size; apply length_map].
  rewrite Hrows. induction Hrun as [st|snapshot st ev events st' _ IH].
  - exact Hnodup.
  - apply IH.
    destruct (step_keys snapshot st ev) as [Hsame | (_ & Hnone & Happ)].
    + rewrite Hsame. exact Hnodup.
    + rewrite Happ. apply get_none_not_key in Hnone.
      apply NoDup_app; [exact Hnodup | constructor; [intros [] | constructor] |].
      intros key Hin [Hk | []]. subst key. exact (Hnone Hin).
Qed.

(** X3: only CSV events write: however a feed is handled, an entry of the
    store afterwards either was there before, unchanged, or has the id
    and the status of a CSV event of the feed. *)
Theorem entries_come_from_csv_events st events st' id e :
  handles JSON_parse getCollection page st events st' ->
  get (importItems st') id = Some e ->
  get (importItems st) id = Some e
  \/ exists importData,
       In importData events /\ isCsv importData = true
       /\ Payload.id importData = id
       /\ Payload.status importData = ImportItem.status e.
Proof.
  intro Hrun. induction Hrun as [st|snapshot st ev events st' _ IH].
  - intro H. left. exact H.
  - intro H. destruct (IH H) as [Hmid | (x & Hin & Hx)].
    + destruct (isCsv ev) eqn:Hcsv.
      * rewrite (step_items _ _ _ _ _ _ Hcsv) in Hmid.
        destruct (updateItems_get _ _ _ _ _ Hmid) as [Hold | [Hid Hst]].
        -- left. exact Hold.
        -- right. exists ev. repeat split;
             [left; reflexivity | exact Hcsv | exact Hid | symmetry; exact Hst].
      * rewrite (step_not_csv _ _ _ _ _ _ Hcsv) in Hmid. left. exact Hmid.
    + right. exists x. split; [right; exact Hin | exact Hx].
Qed.

End StoreInvariants.

(** ** Transitions of one job *)

Section Transitions.

Variable JSON_parse : string -> option jsval.
Variable getCollection : option string -> string -> option string.
Variable page : Page.t.

Local Abbreviation step := (updateOrAddItemFrom JSON_parse getCollection page).
Local Abbreviation once := (updateOrAddItem JSON_parse getCollection page).
Local Abbreviation resolved snapshot importData :=
  (resolveCollectionName getCollection
     (get snapshot (Payload.id importData))
     (fst (parseResourceId (Payload.resourceId importData)))
     (snd (parseResourceId (Payload.resourceId importData)))).

(** X4: the first CSV event seen for a job creates its entry with the
    status the event reports, whatever that status is (a terminal or an
    unrecognized one too), and with the name resolved for it. *)
Theorem first_event_creates_entry snapshot st importData :
  isCsv importData = true ->
  get (importItems st) (Payload.id importData) = None ->
  get (importItems (step snapshot st importData)) (Payload.id importData)
  = Some (ImportItem.make (Payload.status importData) (resolved snapshot importData))
  /\ size (importItems (step snapshot st importData)) = S (size (importItems st)).
Proof.
  intros Hcsv Hnone. rewrite (step_items _ _ _ _ _ _ Hcsv).
  unfold updateItems. rewrite Hnone. split.
  - apply get_set_same.
  - unfold size. rewrite <- !(length_map fst). fold (keys (importItems st)).
    change (map fst ?x) with (keys x).
    rewrite (keys_set_absent _ _ _ Hnone), length_app. simpl. lia.
Qed.

(** X5: a job that is not completed or failed takes every other status a
    CSV event reports for it: there is no order among the statuses, so
    an uploading job goes back to pending. *)
Theorem open_entry_takes_any_status snapshot st importData e :
  isCsv importData = true ->
  get (importItems st) (Payload.id importData) = Some e ->
  isDone (ImportItem.status e) = false ->
  Payload.status importData <> ImportItem.status e ->
  get (importItems (step snapshot st importData)) (Payload.id importData)
  = Some (ImportItem.make (Payload.status importData) (resolved snapshot importData))
  /\ size (importItems (step snapshot st importData)) = size (importItems st).
Proof.
  intros Hcsv Hget Hopen Hne. rewrite (step_items _ _ _ _ _ _ Hcsv).
  unfold updateItems. rewrite Hget, Hopen.
  rewrite (eqb_neq_false (ImportItem.status e) (Payload.status importData))
    by (intro H; apply Hne; symmetry; exact H).
  simpl. split.
  - apply get_set_same.
  - unfold size. rewrite <- !(length_map fst).
    change (map fst ?x) with (keys x).
    rewrite (keys_set_present _ _ _ _ Hget). reflexivity.
Qed.

(** X6: after a CSV event is handled its job has an entry, so the box is
    shown. *)
Theorem handled_job_is_listed snapshot st importData :
  isCsv importData = true ->
  (exists e, get (importItems (step snapshot st importData)) (Payload.id importData)
             = Some e)
  /\ showCsvImportBox (importItems (step snapshot st importData)) = true.
Proof.
  intro Hcsv.
  assert (Hlisted : exists e,
             get (importItems (step snapshot st importData)) (Payload.id importData)
             = Some e).
  { rewrite (step_items _ _ _ _ _ _ Hcsv). unfold updateItems.
    destruct (get (importItems st) (Payload.id importData)) as [e|] eqn:Hget.
    - match goal with |- context [if ?b then _ else _] => destruct b end.
      + exists e. exact Hget.
      + eexists. apply get_set_same.
    - eexists. apply get_set_same. }
  split; [exact Hlisted|].
  destruct Hlisted as [e He].
  destruct (importItems (step snapshot st importData)); [discriminate He | reflexivity].
Qed.

(** X7: [clear] forgets the terminal states: after it the box is hidden,
    and the next CSV event makes its job the only entry, with the
    status it reports, also when the job was completed or failed before
    and the event is an in-progress one. *)
Theorem clear_then_event snapshot st importData :
  isCsv importData = true ->
  showCsvImportBox (clear (importItems st)) = false
  /\ importItems (step snapshot (mkState (clear (importItems st)) (trace st)) importData)
     = [(Payload.id importData,
         ImportItem.make (Payload.status importData) (resolved snapshot importData))].
Proof.
  intro Hcsv. split; [reflexivity|].
  rewrite (step_items _ _ _ _ _ _ Hcsv). reflexivity.
Qed.

(** X8: handled one at a time, a repeated event is harmless for the store:
    the second copy leaves the store as the first one made it. *)
Theorem repeated_event_same_store st importData :
  importItems
    (updateOrAddItem JSON_parse getCollection page
       (updateOrAddItem JSON_parse getCollection page st importData) importData)
  = importItems (updateOrAddItem JSON_parse getCollection page st importData).
Proof.
  destruct (isCsv importData) eqn:Hcsv.
  - assert (Hfirst : exists e,
               get (importItems (once st importData)) (Payload.id importData) = Some e
               /\ (isDone (ImportItem.status e)
                   && isInProgress (Payload.status importData)
                   || String.eqb (ImportItem.status e) (Payload.status importData))
                  = true).
    { unfold updateOrAddItem. rewrite (step_items _ _ _ _ _ _ Hcsv).
      unfold updateItems.
      destruct (get (importItems st) (Payload.id importData)) as [e|] eqn:Hget.
      - match goal with |- context [if ?b then _ else _] => destruct b eqn:Hskip end.
        + exists e. split; [exact Hget | exact Hskip].
        + eexists. split; [apply get_set_same|]. simpl.
          rewrite String.eqb_refl. apply orb_true_r.
      - eexists. split; [apply get_set_same|]. simpl.
        rewrite String.eqb_refl. apply orb_true_r. }
    destruct Hfirst as (e & Hget & Hskip).
    unfold updateOrAddItem at 1. rewrite (step_items _ _ _ _ _ _ Hcsv).
    unfold updateItems. rewrite Hget, Hskip. reflexivity.
  - unfold updateOrAddItem. rewrite !(step_not_csv _ _ _ _ _ _ Hcsv). reflexivity.
Qed.

(** X9: handled one at a time, events keep a name that is known: once the
    entry of a job has a non-empty collection name, it has that name
    after every feed, and no lookup can change it. *)
Theorem known_name_is_kept st events id e :
  get (importItems st) id = Some e ->
  truthy_opt (ImportItem.collection e) = true ->
  exists e',
    get (importItems (run JSON_parse getCollection page st events)) id = Some e'
    /\ ImportItem.collection e' = ImportItem.collection e.
Proof.
  revert st e. induction events as [|ev events IH]; intros st e Hget Hname; simpl.
  - exists e. split; [exact Hget | reflexivity].
  - assert (Hstep : exists e1,
               get (importItems (once st ev)) id = Some e1
               /\ ImportItem.collection e1 = ImportItem.collection e).
    { unfold updateOrAddItem. destruct (isCsv ev) eqn:Hcsv.
      - rewrite (step_items _ _ _ _ _ _ Hcsv).
        destruct (String.eqb_spec (Payload.id ev) id) as [Hid | Hne].
        + subst id. unfold updateItems at 1. rewrite Hget.
          match goal with |- context [if ?b then _ else _] => destruct b end.
          * exists e. split; [exact Hget | reflexivity].
          * eexists. split; [apply get_set_same|]. simpl.
            unfold resolveCollectionName. rewrite Hname. reflexivity.
        + exists e. split; [|reflexivity].
          rewrite (updateItems_other _ _ _ _ Hne). exact Hget.
      - rewrite (step_not_csv _ _ _ _ _ _ Hcsv). exists e.
        split; [exact Hget | reflexivity]. }
    destruct Hstep as (e1 & Hget1 & Hname1).
    destruct (IH (once st ev) e1 Hget1) as (e' & Hget' & Hname').
    + rewrite Hname1. exact Hname.
    + exists e'. split; [exact Hget' | congruence].
Qed.

End Transitions.

(** ** Progress bar, source test and resource id *)

(** X10: the bar is between 10 and 100 percent for every status string, and
    it is full exactly for the completed and the failed jobs. *)
Theorem graphSize_full_iff_done (status : string) :
  (10 <= graphSize status <= 100)%Z
  /\ (graphSize status = 100%Z <-> isDone status = true).
Proof.
  unfold graphSize, isDone.
  destruct (String.eqb_spec status "pending") as [-> | _];
    [simpl; split; [lia | split; discriminate]|].
  destruct (String.eqb_spec status "processing") as [-> | _];
    [simpl; split; [lia | split; discriminate]|].
  destruct (String.eqb_spec status "uploading") as [-> | _];
    [simpl; split; [lia | split; discriminate]|].
  destruct (String.eqb_spec status "completed") as [-> | _];
    [simpl; split; [lia | split; reflexivity]|].
  destruct (String.eqb_spec status "failed") as [-> | _];
    simpl; split; try lia; split; try reflexivity; discriminate.
Qed.

Lemma lower_ascii_letter (a : ascii) :
  (lower_ascii a = "c"%char <-> a = "c"%char \/ a = "C"%char)
  /\ (lower_ascii a = "s"%char <-> a = "s"%char \/ a = "S"%char)
  /\ (lower_ascii a = "v"%char <-> a = "v"%char \/ a = "V"%char).
Proof.
  destruct a as [[] [] [] [] [] [] [] []]; vm_compute;
    (split; [|split]); split;
    solve [ discriminate | intros [H | H]; discriminate H
          | intros _; reflexivity | intros _; left; reflexivity
          | intros _; right; reflexivity ].
Qed.

(** X11: the source test accepts the eight spellings of "csv" in upper and
    lower case and nothing else: no blank around it, no longer name. *)
Theorem isCsv_spellings (importData : Payload.t) :
  isCsv importData = true
  <-> In (Payload.source importData)
        ["csv"; "csV"; "cSv"; "cSV"; "Csv"; "CsV"; "CSv"; "CSV"].
Proof.
  unfold isCsv. rewrite String.eqb_eq. split.
  - destruct (Payload.source importData) as [|a [|b [|c [|? ?]]]];
      simpl; try discriminate.
    intro H. inversion H as [[Ha Hb Hc]].
    apply (proj1 (lower_ascii_letter a)) in Ha.
    apply (proj1 (proj2 (lower_ascii_letter b))) in Hb.
    apply (proj2 (proj2 (lower_ascii_letter c))) in Hc.
    destruct Ha as [-> | ->], Hb as [-> | ->], Hc as [-> | ->]; tauto.
  - intro H. simpl in H.
    repeat (destruct H as [<- | H]; [reflexivity|]). destruct H.
Qed.

Lemma split_head (sep : ascii) (s p : string) (ps : list string) :
  split sep s = p :: ps ->
  includes_char sep p = false
  /\ match ps with
     | [] => s = p
     | _ :: _ => exists rest, s = p ++ String sep rest /\ split sep rest = ps
     end.
Proof.
  revert p ps. induction s as [|a r IH]; simpl; intros p ps H.
  - inversion H. subst. split; reflexivity.
  - destruct (Ascii.eqb a sep) eqn:Ha.
    + inversion H. subst p ps. split; [reflexivity|].
      apply Ascii.eqb_eq in Ha. subst a.
      destruct (split sep r) as [|q qs] eqn:Hr.
      * exfalso. exact (split_not_nil _ _ Hr).
      * exists r. split; [reflexivity | exact Hr].
    + destruct (split sep r) as [|q qs] eqn:Hr.
      * exfalso. exact (split_not_nil _ _ Hr).
      * inversion H. subst p ps.
        destruct (IH q qs eq_refl) as [Hq Hqs]. split.
        -- simpl. rewrite Ha, Hq. reflexivity.
        -- destruct qs as [|q' qs'].
           ++ rewrite Hqs. reflexivity.
           ++ destruct Hqs as (rest & Hrest & Hsplit).
              exists rest. split; [rewrite Hrest; reflexivity | exact Hsplit].
Qed.

(** X12: when both parts of a resource id are defined, neither holds a
    colon, and the id is the database part, a colon and the collection
    part, followed by nothing or by a further colon and text that is
    dropped. *)
Theorem parseResourceId_recompose (s d c : string) :
  parseResourceId (Some s) = (Some d, Some c) ->
  includes_char ":" d = false
  /\ includes_char ":" c = false
  /\ exists tail,
       s = d ++ ":" ++ c ++ tail
       /\ (tail = "" \/ exists dropped, tail = ":" ++ dropped).
Proof.
  unfold parseResourceId.
  destruct (split ":" s) as [|p [|q more]] eqn:Hs; simpl; try discriminate.
  intro H. inversion H. subst p q.
  destruct (split_head _ _ _ _ Hs) as [Hd (rest & Hrest & Hsplit)].
  destruct (split_head _ _ _ _ Hsplit) as [Hc Hmore].
  split; [exact Hd|]. split; [exact Hc|].
  destruct more as [|m more'].
  - exists "". split; [|left; reflexivity].
    rewrite Hrest, Hmore. simpl.
    assert (Hnil : forall x : string, x ++ "" = x)
      by (induction x as [|y x IHx]; simpl; [|rewrite IHx]; reflexivity).
    rewrite Hnil. reflexivity.
  - destruct Hmore as (rest' & Hrest' & _).
    exists (":" ++ rest'). split; [|right; exists rest'; reflexivity].
    rewrite Hrest, Hrest'. reflexivity.
Qed.

(** ** What a notification looks like *)

Section NotificationShape.

Variable JSON_parse : string -> option jsval.
Variable page : Page.t.

Local Abbreviation notify := (showCompletionNotification JSON_parse page).

(** X13: one call posts at most one notification; it invalidates the
    documents exactly when the status is completed; and the
    notification posted is marked as HTML, is a success exactly for a
    completed status, and carries a button exactly for a success whose
    collection is not the one of the page. *)
Theorem notification_shape database collection payload :
  List.length (notifications (notify database collection payload)) <= 1
  /\ (In (Invalidate DOCUMENTS) (notify database collection payload)
      <-> Payload.status payload = "completed")
  /\ (forall n,
         In (AddNotification n) (notify database collection payload) ->
         Notification.isHtml n = true
         /\ (Notification.type n = success <-> Payload.status payload = "completed")
         /\ (Notification.buttons n <> None
             <-> Payload.status payload = "completed"
                 /\ same_opt collection (Page.collection page) = false)).
Proof.
  destruct (String.eqb_spec (Payload.status payload) "completed") as [Hst | Hst].
  - unfold showCompletionNotification. rewrite Hst. simpl.
    split; [lia|]. split.
    + split; [reflexivity|]. intros _. right. left. reflexivity.
    + intros n [Hn | [Hn | []]]; [|discriminate Hn]. inversion Hn. subst n. simpl.
      split; [reflexivity|]. split; [split; reflexivity|].
      destruct (same_opt collection (Page.collection page)); simpl.
      * split; [intro H; exfalso; apply H; reflexivity | intros [_ H]; discriminate H].
      * split; [intros _; split; reflexivity | intros _; discriminate].
  - destruct (errors_truthy (Payload.errors payload)) eqn:Herr.
    + rewrite (notify_error _ _ _ _ _ Hst Herr). simpl.
      split; [lia|]. split.
      * split; [intros [H | []]; discriminate H | intro H; contradiction].
      * intros n [Hn | []]. inversion Hn. subst n. simpl.
        split; [reflexivity|]. split.
        -- split; [discriminate | intro H; contradiction].
        -- split; [intro H; exfalso; apply H; reflexivity | intros [H _]; contradiction].
    + rewrite (notify_silent _ _ _ _ _ Hst Herr). simpl.
      split; [lia|]. split.
      * split; [intros [] | intro H; contradiction].
      * intros n [].
Qed.

(** X14: a first error entry that parses to an object with a [message]
    field gives that field's value as the message, as it is: the last
    one when the key is repeated, and a value that is not a string
    too. *)
Theorem parsed_message_is_posted database collection payload e rest fields m :
  Payload.status payload <> "completed" ->
  Payload.errors payload = ErrorsArray (e :: rest) ->
  JSON_parse e = Some (JObj fields) ->
  lookup_field "message" fields = Some m ->
  notify database collection payload
  = [AddNotification (Notification.make error m true None)].
Proof.
  intros Hst Herr Hparse Hfield.
  rewrite notify_error; [|exact Hst|rewrite Herr; reflexivity].
  rewrite Herr. unfold parsed_message. simpl. rewrite Hparse. simpl.
  rewrite Hfield. reflexivity.
Qed.

(** X17: a truthy [errors] without a first entry to parse gives the default
    message: a non-empty string in place of the array, whatever
    [JSON_parse] does, and the empty array, where the text of
    [undefined] is what is parsed and rejected. *)
Theorem no_entry_uses_default database collection payload :
  Payload.status payload <> "completed" ->
  (exists s, s <> "" /\ Payload.errors payload = ErrorsText s)
  \/ (Payload.errors payload = ErrorsArray [] /\ JSON_parse "undefined" = None) ->
  notify database collection payload
  = [AddNotification
       (Notification.make error (JStr default_errorMessage) true None)].
Proof.
  intros Hst [(s & Hs & Herr) | [Herr Hparse]].
  - rewrite notify_error; [rewrite Herr; reflexivity | exact Hst |].
    rewrite Herr. destruct s; [congruence | reflexivity].
  - rewrite notify_error; [|exact Hst|rewrite Herr; reflexivity].
    rewrite Herr. unfold parsed_message. simpl. rewrite Hparse. reflexivity.
Qed.

End NotificationShape.

(** ** Effects of a feed, and the subscription *)

Section FeedEffects.

Variable JSON_parse : string -> option jsval.
Variable getCollection : option string -> string -> option string.
Variable page : Page.t.
Variable projectId : string.

Local Abbreviation step := (updateOrAddItemFrom JSON_parse getCollection page).

Lemma invalidations_app tr tr' :
  invalidations (tr ++ tr') = invalidations tr + invalidations tr'.
Proof.
  induction tr as [|x tr IH]; simpl.
  - reflexivity.
  - destruct x as [? ? ?|?|[]]; rewrite IH; lia.
Qed.

Lemma invalidations_showCompletionNotification database collection payload :
  invalidations (showCompletionNotification JSON_parse page database collection payload)
  = if String.eqb (Payload.status payload) "completed" then 1 else 0.
Proof.
  destruct (String.eqb_spec (Payload.status payload) "completed") as [Hst | Hst].
  - destruct (notify_success JSON_parse page database collection payload Hst)
      as (n & _ & Hn).
    rewrite Hn. reflexivity.
  - destruct (errors_truthy (Payload.errors payload)) eqn:Herr.
    + rewrite (notify_error _ _ _ _ _ Hst Herr). reflexivity.
    + rewrite (notify_silent _ _ _ _ _ Hst Herr). reflexivity.
Qed.

(** X18: the documents are invalidated once for every CSV event that
    reports completed, repeated ones included, and never for another
    event: however a feed is handled, the invalidations it adds are as
    many as its completed CSV events. *)
Theorem invalidated_per_completed_event st events st' :
  handles JSON_parse getCollection page st events st' ->
  invalidations (trace st')
  = invalidations (trace st) + completedEvents events.
Proof.
  intro Hrun. induction Hrun as [st|snapshot st ev events st' _ IH].
  - simpl. lia.
  - rewrite IH. simpl. destruct (isCsv ev) eqn:Hcsv.
    + rewrite (step_trace _ _ _ _ _ _ Hcsv), invalidations_app.
      unfold isDone.
      destruct (String.eqb_spec (Payload.status ev) "completed") as [Hst | Hst].
      * simpl. rewrite invalidations_showCompletionNotification, Hst. simpl. lia.
      * simpl. destruct (String.eqb (Payload.status ev) "failed"); simpl.
        -- rewrite invalidations_showCompletionNotification.
           rewrite (eqb_neq_false _ _ Hst). lia.
        -- lia.
    + rewrite (step_not_csv _ _ _ _ _ _ Hcsv). simpl. lia.
Qed.

(** X19: nothing is posted, invalidated or entered before a job ends: a
    feed whose events all report statuses other than completed and
    failed leaves the trace as it was, however it is handled. *)
Theorem open_events_are_silent st events st' :
  handles JSON_parse getCollection page st events st' ->
  Forall (fun importData => isDone (Payload.status importData) = false) events ->
  trace st' = trace st.
Proof.
  intro Hrun. induction Hrun as [st|snapshot st ev events st' _ IH].
  - reflexivity.
  - intro Hall. inversion Hall as [|? ? Hev Hrest]; subst.
    rewrite (IH Hrest). destruct (isCsv ev) eqn:Hcsv.
    + rewrite (step_trace _ _ _ _ _ _ Hcsv), Hev. apply app_nil_r.
    + rewrite (step_not_csv _ _ _ _ _ _ Hcsv). reflexivity.
Qed.

(** X20: a message of the channel changes the state only when it passes
    three tests: its channels name this project, its events hold the
    name "migrations.*" as written, and its payload is a CSV job; a
    message that passes the first two is handled as its payload. *)
Theorem subscriber_filters snapshot st response :
  (subscriber JSON_parse getCollection page projectId snapshot st response <> st ->
   includes (Response.channels response) ("projects." ++ projectId) = true
   /\ includes (Response.events response) "migrations.*" = true
   /\ isCsv (Response.payload response) = true)
  /\ (includes (Response.channels response) ("projects." ++ projectId) = true ->
      includes (Response.events response) "migrations.*" = true ->
      subscriber JSON_parse getCollection page projectId snapshot st response
      = step snapshot st (Response.payload response)).
Proof.
  unfold subscriber. split.
  - destruct (includes (Response.channels response) ("projects." ++ projectId));
      simpl; [|intro H; exfalso; apply H; reflexivity].
    destruct (includes (Response.events response) "migrations.*");
      [|intro H; exfalso; apply H; reflexivity].
    destruct (isCsv (Response.payload response)) eqn:Hcsv.
    + intros _. repeat split.
    + rewrite (step_not_csv _ _ _ _ _ _ Hcsv). intro H. exfalso. apply H. reflexivity.
  - intros Hch Hev. rewrite Hch, Hev. reflexivity.
Qed.

End FeedEffects.

(** ** The further properties on the sample data *)

Lemma keys_grow_at_end_witness :
  exists added,
    keys (importItems
            (feed (holding "m1" "pending" None)
               [event "m2" "pending"; event "m1" "processing"; event "m3" "failed"]))
    = (keys (importItems (holding "m1" "pending" None)) ++ added)%list
    /\ List.length added <= 3
    /\ Forall (fun key =>
                 exists importData,
                   In importData
                     [event "m2" "pending"; event "m1" "processing"; event "m3" "failed"]
                   /\ isCsv importData = true /\ Payload.id importData = key) added.
Proof.
  apply (keys_grow_at_end Json.parse directory page (holding "m1" "pending" None)
           [event "m2" "pending"; event "m1" "processing"; event "m3" "failed"]).
  apply run_handles.
Defined.

Lemma row_keys_distinct_witness :
  NoDup (map Row.key
           (rows (importItems
                    (feed empty
                       [event "m1" "pending"; event "m2" "pending";
                        event "m1" "completed"]))))
  /\ List.length
       (rows (importItems
                (feed empty
                   [event "m1" "pending"; event "m2" "pending";
                    event "m1" "completed"])))
     = size (importItems
               (feed empty
                  [event "m1" "pending"; event "m2" "pending";
                   event "m1" "completed"])).
Proof.
  apply (row_keys_distinct Json.parse directory page empty
           [event "m1" "pending"; event "m2" "pending"; event "m1" "completed"]).
  - apply run_handles.
  - constructor.
Defined.

Lemma entries_come_from_csv_events_witness :
  get (importItems empty) "m1" = Some (ImportItem.make "uploading" (Some "Users"))
  \/ exists importData,
       In importData [event "m1" "pending"; event "m1" "uploading"]
       /\ isCsv importData = true
       /\ Payload.id importData = "m1"
       /\ Payload.status importData
          = ImportItem.status (ImportItem.make "uploading" (Some "Users")).
Proof.
  apply (entries_come_from_csv_events Json.parse directory page empty
           [event "m1" "pending"; event "m1" "uploading"]
           (feed empty [event "m1" "pending"; event "m1" "uploading"])).
  - apply run_handles.
  - reflexivity.
Defined.

Lemma first_event_creates_entry_witness :
  get (importItems (step empty (event "m1" "archived"))) "m1"
  = Some (ImportItem.make "archived" (Some "Users"))
  /\ size (importItems (step empty (event "m1" "archived"))) = 1.
Proof.
  apply (first_event_creates_entry Json.parse directory page
           (importItems empty) empty (event "m1" "archived")); reflexivity.
Defined.

Lemma open_entry_takes_any_status_witness :
  get (importItems (step (holding "m1" "uploading" None) (event "m1" "pending"))) "m1"
  = Some (ImportItem.make "pending" (Some "Users"))
  /\ size (importItems (step (holding "m1" "uploading" None) (event "m1" "pending")))
     = 1.
Proof.
  apply (open_entry_takes_any_status Json.parse directory page
           (importItems (holding "m1" "uploading" None))
           (holding "m1" "uploading" None) (event "m1" "pending")
           (ImportItem.make "uploading" None)).
  - reflexivity.
  - reflexivity.
  - reflexivity.
  - discriminate.
Defined.

Lemma handled_job_is_listed_witness :
  (exists e,
      get (importItems (step (holding "m1" "failed" None) (event "m1" "pending"))) "m1"
      = Some e)
  /\ showCsvImportBox
       (importItems (step (holding "m1" "failed" None) (event "m1" "pending")))
     = true.
Proof.
  apply (handled_job_is_listed Json.parse directory page
           (importItems (holding "m1" "failed" None))
           (holding "m1" "failed" None) (event "m1" "pending")).
  reflexivity.
Defined.

Lemma clear_then_event_witness :
  showCsvImportBox (clear (importItems (holding "m1" "completed" (Some "Users"))))
  = false
  /\ importItems
       (updateOrAddItemFrom Json.parse directory page []
          (mkState (clear (importItems (holding "m1" "completed" (Some "Users"))))
             (trace (holding "m1" "completed" (Some "Users"))))
          (event "m1" "processing"))
     = [("m1", ImportItem.make "processing" (Some "Users"))].
Proof.
  apply (clear_then_event Json.parse directory page []
           (holding "m1" "completed" (Some "Users")) (event "m1" "processing")).
  reflexivity.
Defined.

Lemma known_name_is_kept_witness :
  exists e',
    get (importItems
           (feed (holding "m1" "pending" (Some "Orders"))
              [event "m1" "processing"; event "m1" "completed"])) "m1"
    = Some e'
    /\ ImportItem.collection e' = Some "Orders".
Proof.
  apply (known_name_is_kept Json.parse directory page
           (holding "m1" "pending" (Some "Orders"))
           [event "m1" "processing"; event "m1" "completed"]
           "m1" (ImportItem.make "pending" (Some "Orders"))); reflexivity.
Defined.

Lemma parseResourceId_recompose_witness :
  includes_char ":" "db1" = false
  /\ includes_char ":" "col1" = false
  /\ exists tail,
       "db1:col1:extra" = "db1" ++ ":" ++ "col1" ++ tail
       /\ (tail = "" \/ exists dropped, tail = ":" ++ dropped).
Proof.
  apply (parseResourceId_recompose "db1:col1:extra" "db1" "col1"). reflexivity.
Defined.

Lemma parsed_message_is_posted_witness :
  notify (Some "db1") (Some "col1")
    (failure "m1"
       ["{" ++ Json.quoted "message" ++ ": 1, " ++ Json.quoted "message" ++ ": 404}"])
  = [AddNotification (Notification.make error (JNum "404") true None)].
Proof.
  apply (parsed_message_is_posted Json.parse page (Some "db1") (Some "col1")
           (failure "m1"
              ["{" ++ Json.quoted "message" ++ ": 1, " ++ Json.quoted "message"
                   ++ ": 404}"])
           ("{" ++ Json.quoted "message" ++ ": 1, " ++ Json.quoted "message" ++ ": 404}")
           [] [("message", JNum "1"); ("message", JNum "404")]).
  - discriminate.
  - reflexivity.
  - vm_compute. reflexivity.
  - reflexivity.
Defined.

Lemma parsed_without_fields_is_undefined_witness :
  notify (Some "db1") (Some "col1") (failure "m1" ["[1, 2]"])
  = [AddNotification (Notification.make error JUndefined true None)].
Proof.
  apply (parsed_without_fields_is_undefined Json.parse page (Some "db1") (Some "col1")
           (failure "m1" ["[1, 2]"]) "[1, 2]" [] (JArr [JNum "1"; JNum "2"])).
  - discriminate.
  - reflexivity.
  - vm_compute. reflexivity.
  - exact I.
Defined.

Lemma no_entry_uses_default_witness :
  notify (Some "db1") (Some "col1")
    (Payload.make "m1" "csv" "failed" (Some "db1:col1") (ErrorsText "disk full"))
  = [AddNotification
       (Notification.make error (JStr default_errorMessage) true None)]
  /\ notify (Some "db1") (Some "col1") (failure "m1" [])
     = [AddNotification
          (Notification.make error (JStr default_errorMessage) true None)].
Proof.
  split.
  - apply (no_entry_uses_default Json.parse page (Some "db1") (Some "col1")
             (Payload.make "m1" "csv" "failed" (Some "db1:col1")
                (ErrorsText "disk full"))).
    + discriminate.
    + left. exists "disk full". split; [discriminate | reflexivity].
  - apply (no_entry_uses_default Json.parse page (Some "db1") (Some "col1")
             (failure "m1" [])).
    + discriminate.
    + right. split; [reflexivity | vm_compute; reflexivity].
Defined.

Lemma invalidated_per_completed_event_witness :
  invalidations
    (trace (feed empty [event "m1" "completed"; event "m2" "failed";
                        event "m1" "completed"]))
  = invalidations (trace empty)
    + completedEvents [event "m1" "completed"; event "m2" "failed";
                       event "m1" "completed"].
Proof.
  apply (invalidated_per_completed_event Json.parse directory page).
  apply run_handles.
Defined.

Lemma open_events_are_silent_witness :
  trace (feed empty [event "m1" "pending"; event "m1" "uploading"; event "m2" "queued"])
  = trace empty.
Proof.
  apply (open_events_are_silent Json.parse directory page empty
           [event "m1" "pending"; event "m1" "uploading"; event "m2" "queued"]).
  - apply run_handles.
  - repeat constructor.
Defined.

Lemma subscriber_filters_witness :
  subscriber Json.parse directory page "shop" [] empty
    (Response.make ["console"; "projects.shop"] ["migrations.*"; "migrations.m1.update"]
       (event "m1" "pending"))
  = step empty (event "m1" "pending").
Proof.
  apply (proj2 (subscriber_filters Json.parse directory page "shop" [] empty
                  (Response.make ["console"; "projects.shop"]
                     ["migrations.*"; "migrations.m1.update"]
                     (event "m1" "pending")))); reflexivity.
Defined.
